(** * ComfyUI bridge: the client of [main.py], embedded and verified

    The development follows [ComfyUIClient] of [main.py]:
    - [modify_workflow]      (the Workflow Mutator),
    - [queue_prompt]         (the Job Submitter),
    - [wait_for_completion]  (the Completion Watcher),
    - [get_history] and [download_image] (the Result Fetcher).

    Python values that come out of [json.load] / [json.loads] are embedded as
    the inductive type [json]; a Python [dict] is an association list in
    insertion order with the first binding of a key being the live one.
    Everything the program gets from outside (random identifiers, the clock,
    websocket frames, HTTP responses, the file system) is an explicit
    argument of the embedded function.  Clock readings are binary64 floats,
    as [loop.time()] returns them, and their difference is the rounded one
    of the machine. *)

From Stdlib Require Import PrimFloat.
From Stdlib Require SpecFloat FloatOps.
From Stdlib Require Import ZArith QArith List String Ascii Bool Lia.
Import ListNotations.

Local Open Scope string_scope.
Local Open Scope Z_scope.

(* ================================================================= *)
(** ** Python values *)

Module Py.

(** What [json.load] builds.  A float is carried as a rational: the program
    never computes with one, it only stores it or tests its truth value. *)
#[warnings="-register-all"]
Inductive json : Type :=
| JNull
| JBool (b : bool)
| JInt (n : Z)
| JFloat (q : Q)
| JStr (s : string)
| JArr (items : list json)
| JObj (fields : list (string * json)).

(** A Python [dict] with [str] keys. *)
Definition dict : Type := list (string * json).

(** Exceptions that are not [HTTPException]. *)
Inductive pyexn : Type :=
| AttributeError
| TypeError
| KeyError
| IndexError
| JSONDecodeError
| OSError
| ConnectionClosed
| ConnectFailed
| HTTPXError (status : option Z).
    (* [httpx.HTTPError]: [Some c] is the [HTTPStatusError] that
       [raise_for_status] raises on status [c], [None] a transport error
       (connection refused, timeout, ...) *)

(** A piece of the f-string that makes an [HTTPException] detail: literal
    text, or an interpolated value before it is turned into text. *)
Inductive fmt : Type :=
| FStr (s : string)
| FJson (j : json)
| FExn (e : pyexn).

(** [HTTPException(status_code=..., detail=...)]. *)
Record http_exception : Type := HTTPException
  { status_code : Z; detail : list fmt }.

Inductive exn : Type :=
| Http (h : http_exception)
| Other (e : pyexn).

Inductive outcome (A : Type) : Type :=
| Return (a : A)
| Raise (e : exn).
Arguments Return {A} a.
Arguments Raise {A} e.

Definition bind {A B} (m : outcome A) (k : A -> outcome B) : outcome B :=
  match m with
  | Return a => k a
  | Raise e => Raise e
  end.

(** *** str operations *)

(** [str.lower] on the ASCII letters.  A [str] is held as its UTF-8 bytes;
    the only use of [lower] is the search for the ASCII words "negative"
    and "bad", and no letter outside ASCII lowers to a run of bytes that
    completes one of them. *)
Definition lower_ascii (c : ascii) : ascii :=
  let n := nat_of_ascii c in
  if ((65 <=? n) && (n <=? 90))%nat then ascii_of_nat (n + 32) else c.

Fixpoint lower (s : string) : string :=
  match s with
  | EmptyString => EmptyString
  | String c t => String (lower_ascii c) (lower t)
  end.

(** [needle in hay] for two [str]. *)
Fixpoint contains (needle hay : string) : bool :=
  String.prefix needle hay ||
  match hay with
  | EmptyString => false
  | String _ t => contains needle t
  end.

(** *** dict operations *)

(** [d.get(k)], [None] standing for an absent key. *)
Fixpoint dict_get (k : string) (d : dict) : option json :=
  match d with
  | [] => None
  | (k', v) :: rest => if String.eqb k k' then Some v else dict_get k rest
  end.

(** [d[k] = v]: an existing key keeps its place, a new one goes last. *)
Fixpoint dict_set (k : string) (v : json) (d : dict) : dict :=
  match d with
  | [] => [(k, v)]
  | (k', v') :: rest =>
      if String.eqb k k' then (k', v) :: rest
      else (k', v') :: dict_set k v rest
  end.

(** [d.get(k, default)] on a [dict]. *)
Definition dict_get_default (k : string) (default : json) (d : dict) : json :=
  match dict_get k d with
  | Some v => v
  | None => default
  end.

(** [x.get(k, default)] on any value: only a [dict] has [.get]. *)
Definition get (x : json) (k : string) (default : json) : outcome json :=
  match x with
  | JObj d => Return (dict_get_default k default d)
  | _ => Raise (Other AttributeError)
  end.

(** [x == s] for a [str] literal or variable [s]. *)
Definition eq_str (x : json) (s : string) : bool :=
  match x with
  | JStr s' => String.eqb s' s
  | _ => false
  end.

(** [x is None]. *)
Definition is_none (x : json) : bool :=
  match x with
  | JNull => true
  | _ => false
  end.

(** Truth value, as [not x] tests it. *)
Definition truthy (x : json) : bool :=
  match x with
  | JNull => false
  | JBool b => b
  | JInt n => negb (n =? 0)
  | JFloat q => negb (Qeq_bool q 0)
  | JStr s => negb (String.eqb s "")
  | JArr l => match l with [] => false | _ => true end
  | JObj d => match d with [] => false | _ => true end
  end.

(** [k in x] for a [str] [k]: a key of a dict, an item of a list, a
    substring of a str; nothing else is a container. *)
Definition has (k : string) (x : json) : outcome bool :=
  match x with
  | JObj d => Return (match dict_get k d with Some _ => true | None => false end)
  | JArr l => Return (existsb (fun y => eq_str y k) l)
  | JStr s => Return (contains k s)
  | _ => Raise (Other TypeError)
  end.

(** [x[k]] for a [str] [k]. *)
Definition getitem (x : json) (k : string) : outcome json :=
  match x with
  | JObj d =>
      match dict_get k d with
      | Some v => Return v
      | None => Raise (Other KeyError)
      end
  | _ => Raise (Other TypeError)
  end.

(** [len(x)]; of a str only whether it is 0 is ever used. *)
Definition len (x : json) : outcome Z :=
  match x with
  | JStr s => Return (Z.of_nat (String.length s))
  | JArr l => Return (Z.of_nat (List.length l))
  | JObj d => Return (Z.of_nat (List.length d))
  | _ => Raise (Other TypeError)
  end.

(** [x[0]].  On a str it is the one-character str at its head, of which
    only the fact that it is a non-empty str is ever used. *)
Definition getitem0 (x : json) : outcome json :=
  match x with
  | JArr (y :: _) => Return y
  | JArr [] => Raise (Other IndexError)
  | JStr (String c _) => Return (JStr (String c EmptyString))
  | JStr EmptyString => Raise (Other IndexError)
  | JObj _ => Raise (Other KeyError)
  | _ => Raise (Other TypeError)
  end.

(** [x.items()]. *)
Definition items (x : json) : outcome dict :=
  match x with
  | JObj d => Return d
  | _ => Raise (Other AttributeError)
  end.

(** What [json.loads(text)] or [response.json()] makes of a text: the
    decoded value, or a [JSONDecodeError]. *)
Inductive decoded : Type :=
| Json (data : json)
| NotJson (raw : string).

(** How an [httpx] request followed by [raise_for_status] ends: with an
    [httpx.HTTPError], or with the body of a 2xx response. *)
Inductive reply (A : Type) : Type :=
| HttpFails (status : option Z)
| Replies (body : A).
Arguments HttpFails {A} status.
Arguments Replies {A} body.

End Py.
Import Py.

(* ================================================================= *)
(** ** The Workflow Mutator: [ComfyUIClient.modify_workflow] *)

Module Mutator.

(** The lines [modify_workflow] prints. *)
Inductive line : Type :=
| SetNegative (node_id : string)
| SetPositive (node_id : string)
| RandomizedSeed (node_id : string) (seed : json)
| WarningNoNodes.

(** The local state of one call: the [modified] flag, what was printed and
    how many [uuid.uuid4()] values were drawn so far. *)
Record locals : Type := Locals
  { modified : bool; stdout : list line; drawn : nat }.

Definition say (l : line) (st : locals) : locals :=
  Locals (modified st) (stdout st ++ [l]) (drawn st).

Definition set_modified (st : locals) : locals :=
  Locals true (stdout st) (drawn st).

Definition draw (st : locals) : locals :=
  Locals (modified st) (stdout st) (S (drawn st)).

(** [node_data.get("inputs", {})]: the object stored under "inputs" when
    there is one (an alias: writes to it are writes to the node), and a
    fresh empty dict that nothing refers to otherwise. *)
Definition inputs_of (node_data : dict) : json * bool :=
  match dict_get "inputs" node_data with
  | Some v => (v, true)
  | None => (JObj [], false)
  end.

(** The node after [inputs] was updated in place to [inputs']. *)
Definition with_inputs (aliased : bool) (node_data : dict) (inputs' : dict)
  : dict :=
  if aliased then dict_set "inputs" (JObj inputs') node_data else node_data.

(** [node_data.get("class_type", "") == name]. *)
Definition class_is (node_data : dict) (name : string) : bool :=
  eq_str (dict_get_default "class_type" (JStr "") node_data) name.

(** The test of line 90 on the current text. *)
Definition negative_slot (current_text : string) : bool :=
  contains "negative" (lower current_text)
  || contains "bad" (lower current_text).

Section WithEntropy.

(** [uuid4_int k] is [uuid.uuid4().int] of the [k]-th call. *)
Variable uuid4_int : nat -> Z.

Definition seed_of (k : nat) : Z := uuid4_int k mod 2 ^ 32.

(** The body of the [for] loop on one item.  The result is the value the
    node holds after the body ran, or the exception that left it
    untouched. *)
Definition visit (positive_prompt negative_prompt : string)
           (node_id : string) (node_data : json) (st : locals)
  : locals * outcome json :=
  match node_data with
  | JObj nd =>
      if class_is nd "CLIPTextEncode" then
        let '(inputs, aliased) := inputs_of nd in
        match inputs with
        | JObj ins =>
            match dict_get_default "text" (JStr "") ins with
            | JStr current_text =>
                if negative_slot current_text then
                  let ins' := dict_set "text" (JStr negative_prompt) ins in
                  (set_modified (say (SetNegative node_id) st),
                   Return (JObj (with_inputs aliased nd ins')))
                else
                  let ins' := dict_set "text" (JStr positive_prompt) ins in
                  (set_modified (say (SetPositive node_id) st),
                   Return (JObj (with_inputs aliased nd ins')))
            | _ => (st, Raise (Other AttributeError))   (* no [.lower] *)
            end
        | _ => (st, Raise (Other AttributeError))       (* no [.get] *)
        end
      else if class_is nd "KSampler" then
        let '(inputs, aliased) := inputs_of nd in
        let seed := JInt (seed_of (drawn st)) in
        let st := draw st in
        match inputs with
        | JObj ins =>
            let ins' := dict_set "seed" seed ins in
            (set_modified (say (RandomizedSeed node_id seed) st),
             Return (JObj (with_inputs aliased nd ins')))
        | _ => (st, Raise (Other TypeError))   (* no item assignment *)
        end
      else (st, Return node_data)
  | _ => (st, Return node_data)
  end.

(** The [for] loop over [workflow.items()], on the items still to visit.
    It gives the items as the loop leaves them. *)
Fixpoint visit_items (positive_prompt negative_prompt : string)
         (items : dict) (st : locals) : dict * locals * option exn :=
  match items with
  | [] => ([], st, None)
  | (node_id, node_data) :: rest =>
      match visit positive_prompt negative_prompt node_id node_data st with
      | (st', Raise e) => ((node_id, node_data) :: rest, st', Some e)
      | (st', Return node_data') =>
          let '(rest', st'', r) :=
            visit_items positive_prompt negative_prompt rest st' in
          ((node_id, node_data') :: rest', st'', r)
      end
  end.

(** What a call leaves behind: the workflow object (mutated in place),
    the printed lines, and the exception if the call raised.  When
    [raised] is [None] the call returned [graph]. *)
Record exit : Type := Exit
  { graph : dict; printed : list line; raised : option exn }.

Definition modify_workflow (workflow : dict)
           (positive_prompt negative_prompt : string) : exit :=
  let '(workflow', st, r) :=
    visit_items positive_prompt negative_prompt workflow
                (Locals false [] 0) in
  match r with
  | Some e => Exit workflow' (stdout st) (Some e)
  | None =>
      let st := if modified st then st else say WarningNoNodes st in
      Exit workflow' (stdout st) None
  end.

End WithEntropy.

(** The node stored under [node_id], when it is a dict. *)
Definition node_of (g : dict) (node_id : string) : option dict :=
  match dict_get node_id g with
  | Some (JObj nd) => Some nd
  | _ => None
  end.

(** [g[node_id]["inputs"][field]], when all of it is there. *)
Definition input_of (g : dict) (node_id field : string) : option json :=
  match node_of g node_id with
  | Some nd =>
      match dict_get "inputs" nd with
      | Some (JObj ins) => dict_get field ins
      | _ => None
      end
  | None => None
  end.

End Mutator.

Notation "x <- m ;; k" := (Py.bind m (fun x => k))
  (at level 61, m at next level, right associativity).

(* ================================================================= *)
(** ** The Job Submitter: [ComfyUIClient.queue_prompt] *)

Module Submitter.

(** [post] is the upstream's answer to [POST {base_url}/prompt] with the
    payload [{"prompt": workflow}]. *)
Definition queue_prompt (base_url : string)
           (post : json -> reply decoded) (workflow : dict) : outcome json :=
  let payload := JObj [("prompt", JObj workflow)] in
  match post payload with
  | HttpFails c =>
      Raise (Http (HTTPException 503
        [FStr "Failed to connect to ComfyUI at "; FStr base_url; FStr ": ";
         FExn (HTTPXError c)]))
  | Replies (NotJson _) => Raise (Other JSONDecodeError)
  | Replies (Json result) =>
      prompt_id <- get result "prompt_id" JNull ;;
      if negb (truthy prompt_id) then
        Raise (Http (HTTPException 500
          [FStr "No prompt_id returned from ComfyUI"]))
      else Return prompt_id
  end.

End Submitter.

(* ================================================================= *)
(** ** The Completion Watcher: [ComfyUIClient.wait_for_completion] *)

Module Watcher.

(** How [await asyncio.wait_for(websocket.recv(), timeout=5.0)] ends. *)
Inductive recv : Type :=
| Received (message : decoded)   (* a frame, as [json.loads] sees it *)
| RecvTimeout                    (* [asyncio.TimeoutError]: 5 units passed *)
| RecvFailed (e : pyexn).        (* any other exception of [recv] *)

(** One turn of the [while True] loop, as the environment drives it:
    [clock] is what the event loop's [time()] reads at line 140,
    [incoming] is how the receive of line 144 ends if it is reached, and
    [waited] is how long that receive took (at most 5 time units, and 5
    when it timed out).  The program never sees [waited]. *)
Record turn : Type := Turn { clock : float; waited : float; incoming : recv }.

(** When the receive of a turn ended: when its message arrived. *)
Definition arrival (t : turn) : float := (clock t + waited t)%float.

Definition default_timeout : Z := 300.
Definition recv_timeout : float := 5.

Definition execution_completed : option bool := Some true.
Definition keep_watching : option bool := None.

(** Lines 145-164, the body of the inner [try] once a frame arrived:
    [Return (Some b)] is [return b], [Return None] falls out of the [try]
    into the next turn of the loop. *)
Definition on_message (prompt_id : string) (message : decoded)
  : outcome (option bool) :=
  match message with
  | NotJson _ => Raise (Other JSONDecodeError)
  | Json data =>
      msg_type <- get data "type" JNull ;;
      if eq_str msg_type "executing" then
        exec_data <- get data "data" (JObj []) ;;
        exec_prompt_id <- get exec_data "prompt_id" JNull ;;
        node <- get exec_data "node" JNull ;;
        if eq_str exec_prompt_id prompt_id && is_none node then
          Return execution_completed
        else Return keep_watching
      else if eq_str msg_type "execution_error" then
        error_data <- get data "data" (JObj []) ;;
        error_prompt_id <- get error_data "prompt_id" JNull ;;
        if eq_str error_prompt_id prompt_id then
          Raise (Http (HTTPException 500
            [FStr "ComfyUI execution error: "; FJson error_data]))
        else Return keep_watching
      else Return keep_watching
  end.

Definition timed_out : exn :=
  Http (HTTPException 504 [FStr "Timeout waiting for image generation"]).

(** [x > n] for a float [x] and an int [n].  Python compares the two by
    their exact values: a finite float is [m * 2 ^ e] with the sign it has,
    a NaN is greater than nothing, and an infinity is told by its sign. *)
Definition float_gt_int (x : float) (n : Z) : bool :=
  match FloatOps.Prim2SF x with
  | SpecFloat.S754_nan => false
  | SpecFloat.S754_infinity negative => negb negative
  | SpecFloat.S754_zero _ => 0 >? n
  | SpecFloat.S754_finite negative m e =>
      let v := if negative then Z.neg m else Z.pos m in
      if 0 <=? e then v * 2 ^ e >? n else v >? n * 2 ^ (- e)
  end.

(** [time() - start_time > timeout]: the difference is the binary64
    subtraction of the two readings, rounded to nearest. *)
Definition deadline_passed (start_time now : float) (timeout : Z) : bool :=
  float_gt_int (now - start_time)%float timeout.

(** The [while True] loop over the turns the environment provides.
    [None]: the turns ran out with the loop still going. *)
Fixpoint watch (prompt_id : string) (timeout : Z) (start_time : float)
         (turns : list turn) : option (outcome bool) :=
  match turns with
  | [] => None
  | t :: rest =>
      if deadline_passed start_time (clock t) timeout then
        Some (Raise timed_out)
      else
        match incoming t with
        | RecvTimeout => watch prompt_id timeout start_time rest
        | RecvFailed e => Some (Raise (Other e))
        | Received message =>
            match on_message prompt_id message with
            | Return None => watch prompt_id timeout start_time rest
            | Return (Some b) => Some (Return b)
            | Raise e => Some (Raise e)
            end
        end
  end.

(** The outer [except Exception as e] of lines 169-175. *)
Definition rethrow (r : outcome bool) : outcome bool :=
  match r with
  | Raise (Other e) =>
      Raise (Http (HTTPException 500 [FStr "WebSocket error: "; FExn e]))
  | _ => r
  end.

(** How [websockets.connect(ws_url)] ends: it fails, or the connection is
    open, [start_time] is read and the loop is driven by [turns]. *)
Inductive connection : Type :=
| Connected (start_time : float) (turns : list turn)
| NotConnected (e : pyexn).

Definition wait_for_completion (prompt_id : string) (timeout : Z)
           (ws : connection) : option (outcome bool) :=
  match ws with
  | NotConnected e => Some (rethrow (Raise (Other e)))
  | Connected start_time turns =>
      option_map rethrow (watch prompt_id timeout start_time turns)
  end.

End Watcher.

(* ================================================================= *)
(** ** The Result Fetcher: [get_history] and [download_image] *)

Module Fetcher.

Definition bytes : Type := list Byte.byte.

(** The local files: path and content, the latest write first. *)
Definition disk : Type := list (string * bytes).

(** How lines 227-229 end once [open(output_path, "wb")] has created or
    emptied the file: [f.write(response.content)], the close of the file at
    the end of the [with] block, and the [print] after it. *)
Inductive saved : Type :=
| Saved                               (* all of them went through *)
| WriteFails (kept : nat) (e : pyexn) (* the write or the close raised [e];
                                         [kept] bytes had reached the file *)
| PrintFails (e : pyexn).             (* the file is complete; [print] raised *)

(** The remote service and the local machine, as [download_image] meets
    them. *)
Record world : Type := World
  { history : string -> reply decoded;   (* GET /history/{prompt_id} *)
    view : dict -> reply bytes;          (* GET /view with these params *)
    can_open : string -> bool;           (* [open(path, "wb")] succeeds *)
    save : string -> bytes -> saved }.   (* writing these bytes to the path *)

Definition get_history (w : world) (prompt_id : string) : outcome json :=
  match history w prompt_id with
  | HttpFails c =>
      Raise (Http (HTTPException 500
        [FStr "Failed to get history: "; FExn (HTTPXError c)]))
  | Replies (NotJson _) => Raise (Other JSONDecodeError)
  | Replies (Json j) => Return j
  end.

(** The [for] loop of lines 198-201; [JNull] is the initial [None]. *)
Fixpoint first_image (outputs : dict) : outcome json :=
  match outputs with
  | [] => Return JNull
  | (node_id, node_output) :: rest =>
      present <- has "images" node_output ;;
      if present then
        images <- getitem node_output "images" ;;
        n <- len images ;;
        if 0 <? n then getitem0 images else first_image rest
      else first_image rest
  end.

(** *** [pathlib] on a POSIX system *)

(** [s.split("/")]. *)
Fixpoint split_slash (s : string) : list string :=
  match s with
  | EmptyString => [EmptyString]
  | String c t =>
      if Ascii.eqb c "/" then EmptyString :: split_slash t
      else
        match split_slash t with
        | x :: xs => String c x :: xs
        | [] => [String c EmptyString]
        end
  end.

(** [s.lstrip("/")]. *)
Fixpoint lstrip_slash (s : string) : string :=
  match s with
  | String c t => if Ascii.eqb c "/" then lstrip_slash t else s
  | EmptyString => EmptyString
  end.

(** [splitroot]: the root is "//" for exactly two leading slashes, "/" for
    any other number of them, and empty when there is none. *)
Definition root_of (s : string) : string :=
  match (String.length s - String.length (lstrip_slash s))%nat with
  | O => ""
  | 2%nat => "//"
  | _ => "/"
  end.

(** The components a path keeps: empty ones and "." are dropped. *)
Definition kept_part (x : string) : bool :=
  negb (x =? "")%string && negb (x =? ".")%string.

Definition parse_parts (s : string) : string * list string :=
  (root_of s, filter kept_part (split_slash (lstrip_slash s))).

(** [str] of a path with this root and these components. *)
Definition render (root : string) (parts : list string) : string :=
  let s := root ++ String.concat "/" parts in
  if (s =? "")%string then "." else s.

(** [str(Path(d) / n)] for [PosixPath]: a name with a root of its own
    replaces the directory. *)
Definition posix_join (d n : string) : string :=
  let (root, parts) := parse_parts d in
  let (root2, parts2) := parse_parts n in
  if (root2 =? "")%string then render root (parts ++ parts2)
  else render root2 parts2.

Section WithLibrary.

(** [path_join d n] is [str(Path(d) / n)] of [pathlib], for the flavour of
    paths of the machine ([posix_join] on a POSIX one). *)
Variable path_join : string -> string -> string.
(** [repr x] is the text an f-string gives a value that is not a str. *)
Variable repr : json -> string.

Definition interpolate (x : json) : string :=
  match x with
  | JStr s => s
  | _ => repr x
  end.

Definition artifact_name (prompt_id : string) (filename : json) : string :=
  prompt_id ++ "_" ++ interpolate filename.

(** The [except httpx.HTTPError] of lines 232-236, which is also around
    the saving of the file: what becomes of an exception raised there. *)
Definition download_failed (e : pyexn) : exn :=
  match e with
  | HTTPXError c =>
      Http (HTTPException 500
        [FStr "Failed to download image: "; FExn (HTTPXError c)])
  | _ => Other e
  end.

Definition download_image (w : world) (files : disk)
           (prompt_id output_dir : string) : disk * outcome string :=
  let stop (r : outcome string) := (files, r) in
  match get_history w prompt_id with
  | Raise e => stop (Raise e)
  | Return history =>
  match has prompt_id history with
  | Raise e => stop (Raise e)
  | Return false =>
      stop (Raise (Http (HTTPException 404
              [FStr "Prompt ID not found in history"])))
  | Return true =>
  match (entry <- getitem history prompt_id ;;
         outputs <- get entry "outputs" (JObj []) ;;
         node_outputs <- items outputs ;;
         first_image node_outputs) with
  | Raise e => stop (Raise e)
  | Return image_info =>
  if negb (truthy image_info) then
    stop (Raise (Http (HTTPException 404 [FStr "No output images found"])))
  else
  match (filename <- get image_info "filename" JNull ;;
         subfolder <- get image_info "subfolder" (JStr "") ;;
         folder_type <- get image_info "type" (JStr "output") ;;
         Return (filename, subfolder, folder_type)) with
  | Raise e => stop (Raise e)
  | Return (filename, subfolder, folder_type) =>
  if negb (truthy filename) then
    stop (Raise (Http (HTTPException 500 [FStr "No filename in output"])))
  else
  let params := [("filename", filename); ("subfolder", subfolder);
                 ("type", folder_type)] in
  match view w params with
  | HttpFails c =>
      stop (Raise (Http (HTTPException 500
              [FStr "Failed to download image: "; FExn (HTTPXError c)])))
  | Replies content =>
      let output_path :=
        path_join output_dir (artifact_name prompt_id filename) in
      if negb (can_open w output_path) then stop (Raise (Other OSError))
      else
        (* from here on the file exists, emptied by [open] *)
        match save w output_path content with
        | WriteFails kept e =>
            ((output_path, firstn kept content) :: files,
             Raise (download_failed e))
        | PrintFails e =>
            ((output_path, content) :: files, Raise (download_failed e))
        | Saved => ((output_path, content) :: files, Return output_path)
        end
  end end end end end.

End WithLibrary.

End Fetcher.

(* ================================================================= *)
(** ** The client object: [ComfyUIClient.__init__] *)

Module Client.

(** [s.rstrip("/")]. *)
Fixpoint rstrip_slash (s : string) : string :=
  match s with
  | EmptyString => EmptyString
  | String c t =>
      match rstrip_slash t with
      | EmptyString =>
          if Ascii.eqb c "/" then EmptyString else String c EmptyString
      | t' => String c t'
      end
  end.

(** [s.replace(old, new)] for a non-empty [old]: the occurrences of [old]
    are taken from left to right without overlap.  [skip] counts the
    characters of an occurrence that are still to be dropped. *)
Fixpoint replace_from (old new : string) (skip : nat) (s : string) : string :=
  match s with
  | EmptyString => EmptyString
  | String c t =>
      match skip with
      | S k => replace_from old new k t
      | O =>
          if String.prefix old s
          then new ++ replace_from old new (String.length old - 1) t
          else String c (replace_from old new 0 t)
      end
  end.

Definition replace (old new s : string) : string := replace_from old new 0 s.

Record client : Type := ComfyUIClient { base_url : string; ws_url : string }.

Definition init (url : string) : client :=
  let base := rstrip_slash url in
  ComfyUIClient base
    (replace "https://" "wss://" (replace "http://" "ws://" base)).

End Client.

(* ================================================================= *)
(** ** The Workflow Template Store: [ComfyUIClient.load_workflow] *)

Module Loader.

(** How [open(workflow_path)] followed by [json.load(f)] ends. *)
Inductive opened : Type :=
| FileNotFound                   (* [FileNotFoundError] *)
| OpenFails (e : pyexn)          (* any other exception of [open] or [read] *)
| Loaded (content : decoded).    (* the text of the file, as [json.load] sees it *)

Definition load_workflow (workflow_path : string) (file : opened)
  : outcome json :=
  match file with
  | Loaded (Json workflow) => Return workflow
  | FileNotFound =>
      Raise (Http (HTTPException 500
        [FStr "Workflow file not found: "; FStr workflow_path;
         FStr ". Please place your workflow_api.json in the project root."]))
  | Loaded (NotJson _) =>
      Raise (Http (HTTPException 500 [FStr "Invalid workflow JSON file"]))
  | OpenFails e => Raise (Other e)
  end.

End Loader.

(* ================================================================= *)
(** ** The Bridge Service: the handler [generate_image] *)

Module Bridge.

Record GenerateImageRequest : Type := Request
  { prompt : string; negative_prompt : option string }.

Record GenerateImageResponse : Type := Response
  { status : string; message : string;
    image_path : option string; prompt_id : option string }.

(** What the five calls on [client] do in one run of the handler.  Job
    identifiers are strs, as [queue_prompt], [wait_for_completion] and
    [download_image] are annotated. *)
Record calls : Type := Calls
  { load : outcome json;
    modify : json -> string -> option string -> outcome json;
    queue : json -> outcome string;
    wait : string -> option (outcome bool);
    download : string -> Fetcher.disk -> Fetcher.disk * outcome string }.

(** The two [except] clauses of lines 304-310. *)
Definition classify {A : Type} (r : outcome A) : outcome A :=
  match r with
  | Raise (Other e) =>
      Raise (Http (HTTPException 500 [FStr "Unexpected error: "; FExn e]))
  | _ => r
  end.

(** Lines 276-310.  [None]: the watch has not ended on the turns given. *)
Definition generate_image (client : calls) (request : GenerateImageRequest)
           (files : Fetcher.disk)
  : option (Fetcher.disk * outcome GenerateImageResponse) :=
  match load client with
  | Raise e => Some (files, classify (Raise e))
  | Return workflow =>
  match modify client workflow (prompt request) (negative_prompt request) with
  | Raise e => Some (files, classify (Raise e))
  | Return modified_workflow =>
  match queue client modified_workflow with
  | Raise e => Some (files, classify (Raise e))
  | Return prompt_id =>
  match wait client prompt_id with
  | None => None
  | Some (Raise e) => Some (files, classify (Raise e))
  | Some (Return _) =>
  match download client prompt_id files with
  | (files', Raise e) => Some (files', classify (Raise e))
  | (files', Return image_path) =>
      Some (files',
            Return (Response "success" "Image generated successfully"
                             (Some image_path) (Some prompt_id)))
  end end end end end.

End Bridge.

Import Mutator Submitter Watcher Fetcher.
Import Client Loader Bridge.

Local Open Scope list_scope.

(* ================================================================= *)
(** ** Vocabulary of the statements *)

(** [d'] has the bindings of [d] at every key but [k]. *)
Definition agree_except (k : string) (d d' : dict) : Prop :=
  forall k', k' <> k -> dict_get k' d' = dict_get k' d.

(** What the mutator may do to one node value: nothing, or, on a node with
    an "inputs" mapping, rebind "text" (a CLIPTextEncode node) or "seed" (a
    KSampler node) inside that mapping, the keys of the node staying as they
    were. *)
Definition only_slot_changed (v v' : json) : Prop :=
  v' = v \/
  exists nd nd' ins ins',
    v = JObj nd /\ v' = JObj nd' /\
    map fst nd' = map fst nd /\
    agree_except "inputs" nd nd' /\
    dict_get "inputs" nd = Some (JObj ins) /\
    dict_get "inputs" nd' = Some (JObj ins') /\
    ((class_is nd "CLIPTextEncode" = true /\ agree_except "text" ins ins') \/
     (class_is nd "KSampler" = true /\ agree_except "seed" ins ins')).

Definition same_id_only_slot_changed (before now : string * json) : Prop :=
  fst now = fst before /\ only_slot_changed (snd before) (snd now).

(** An unsigned 32-bit value. *)
Definition is_u32 (v : json) : Prop :=
  exists z, v = JInt z /\ 0 <= z < 2 ^ 32.

(** [st'] is a later state of the locals than [st]: the flag is not cleared,
    lines were only added, and none of them is the warning. *)
Definition extends (st st' : locals) : Prop :=
  (modified st = true -> modified st' = true) /\
  (exists more, stdout st' = (stdout st ++ more)%list /\ ~ In WarningNoNodes more) /\
  (drawn st <= drawn st')%nat.

(** The payload of a message names the watched job. *)
Definition names_job (prompt_id : string) (payload : dict) : bool :=
  eq_str (dict_get_default "prompt_id" JNull payload) prompt_id.

(** The payload has no current node: the key is absent or holds null. *)
Definition no_node (payload : dict) : bool :=
  is_none (dict_get_default "node" JNull payload).

Definition tag_is (event : dict) (tag : string) : bool :=
  eq_str (dict_get_default "type" JNull event) tag.

(** The payload of an event; a missing one counts as empty. *)
Definition payload_of (event : dict) : json :=
  dict_get_default "data" (JObj []) event.

(** A terminating event for [prompt_id]: an "executing" message that names
    it and has no node, or an "execution_error" message that names it. *)
Definition terminating (prompt_id : string) (r : recv) : bool :=
  match r with
  | Received (Json (JObj event)) =>
      match payload_of event with
      | JObj payload =>
          (tag_is event "executing"
           && names_job prompt_id payload && no_node payload)
          || (tag_is event "execution_error" && names_job prompt_id payload)
      | _ => false
      end
  | _ => false
  end.

(** What the loop passes over: a receive that timed out, or a tagged
    message (with a mapping as payload when its tag is one of the two that
    matter) that is not terminating for [prompt_id]. *)
Definition ignorable (prompt_id : string) (r : recv) : bool :=
  match r with
  | RecvTimeout => true
  | RecvFailed _ => false
  | Received (NotJson _) => false
  | Received (Json (JObj event)) =>
      if tag_is event "executing" || tag_is event "execution_error" then
        match payload_of event with
        | JObj _ => negb (terminating prompt_id r)
        | _ => false
        end
      else true
  | Received (Json _) => false
  end.

(** The status code an outcome carries when it is an [HTTPException]. *)
Definition status_of {A : Type} (r : outcome A) : option Z :=
  match r with
  | Raise (Http h) => Some (status_code h)
  | _ => None
  end.

(** An output descriptor that the scan of [download_image] passes over,
    of whatever type it is: a mapping without "images" or with an empty
    list, str or mapping there; a list without the element "images"; a str
    without that substring. *)
Definition holds_no_image (node_output : string * json) : bool :=
  match snd node_output with
  | JObj od =>
      match dict_get "images" od with
      | None | Some (JArr []) | Some (JObj []) => true
      | Some (JStr s) => (s =? "")%string
      | Some _ => false
      end
  | JArr l => negb (existsb (fun x => eq_str x "images") l)
  | JStr s => negb (contains "images" s)
  | _ => false
  end.

(** The files and the result of [download_image] once [output_path] has
    been opened, with [content] to be written (lines 227-230). *)
Definition after_opening (w : world) (files : disk) (output_path : string)
           (content : bytes) : disk * outcome string :=
  match save w output_path content with
  | WriteFails kept e =>
      ((output_path, firstn kept content) :: files, Raise (download_failed e))
  | PrintFails e =>
      ((output_path, content) :: files, Raise (download_failed e))
  | Saved => ((output_path, content) :: files, Return output_path)
  end.

(** No character of [s] is a slash. *)
Fixpoint no_slash (s : string) : bool :=
  match s with
  | EmptyString => true
  | String c t => negb (Ascii.eqb c "/") && no_slash t
  end.

(** Stand-ins for the two library functions that [download_image] takes as
    parameters, for statements about one concrete run: [pathlib] on a
    directory and a name that need no normalising, and an f-string that
    never meets a value other than a str. *)
Definition plain_join (d n : string) : string := d ++ "/" ++ n.
Definition no_repr (x : json) : string := "".

Section LoopBody.

Variable uuid4_int : nat -> Z.
Variables positive_prompt negative_prompt : string.

(** The ways the loop body of [modify_workflow] treats a node: it passes
    over it, fills a text slot, draws a seed, or raises. *)
Inductive visited (node_id : string) (st : locals)
  : json -> locals -> outcome json -> Prop :=
| Skipped v :
    (forall nd, v = JObj nd ->
       class_is nd "CLIPTextEncode" = false /\ class_is nd "KSampler" = false) ->
    visited node_id st v st (Return v)
| TextNode nd ins aliased current_text new_text said :
    class_is nd "CLIPTextEncode" = true ->
    inputs_of nd = (JObj ins, aliased) ->
    dict_get_default "text" (JStr "") ins = JStr current_text ->
    (new_text, said) =
      (if negative_slot current_text
       then (negative_prompt, SetNegative node_id)
       else (positive_prompt, SetPositive node_id)) ->
    visited node_id st (JObj nd)
            (set_modified (say said st))
            (Return (JObj (with_inputs aliased nd
                             (dict_set "text" (JStr new_text) ins))))
| SeedNode nd ins aliased :
    class_is nd "CLIPTextEncode" = false ->
    class_is nd "KSampler" = true ->
    inputs_of nd = (JObj ins, aliased) ->
    visited node_id st (JObj nd)
            (set_modified
               (say (RandomizedSeed node_id
                       (JInt (seed_of uuid4_int (drawn st)))) (draw st)))
            (Return (JObj (with_inputs aliased nd
                             (dict_set "seed"
                                (JInt (seed_of uuid4_int (drawn st))) ins))))
| TextNodeFails nd v aliased :
    class_is nd "CLIPTextEncode" = true ->
    inputs_of nd = (v, aliased) ->
    (forall ins, v = JObj ins ->
       forall s, dict_get_default "text" (JStr "") ins <> JStr s) ->
    visited node_id st (JObj nd) st (Raise (Other AttributeError))
| SeedNodeFails nd v aliased :
    class_is nd "CLIPTextEncode" = false ->
    class_is nd "KSampler" = true ->
    inputs_of nd = (v, aliased) ->
    (forall ins, v <> JObj ins) ->
    visited node_id st (JObj nd) (draw st) (Raise (Other TypeError)).

End LoopBody.

(* ================================================================= *)
(** ** Vocabulary of the further statements *)

(** A node the loop body of [modify_workflow] gets through: a CLIPTextEncode
    node whose "inputs", if any, is a mapping with a str (or no) "text"; a
    KSampler node whose "inputs", if any, is a mapping; anything else. *)
Definition visitable (item : string * json) : bool :=
  match snd item with
  | JObj nd =>
      if class_is nd "CLIPTextEncode" then
        match dict_get "inputs" nd with
        | None => true
        | Some (JObj ins) =>
            match dict_get "text" ins with
            | None | Some (JStr _) => true
            | Some _ => false
            end
        | Some _ => false
        end
      else if class_is nd "KSampler" then
        match dict_get "inputs" nd with
        | None | Some (JObj _) => true
        | Some _ => false
        end
      else true
  | _ => true
  end.

(** A node of one of the two classes the mutator looks for. *)
Definition classed (item : string * json) : bool :=
  match snd item with
  | JObj nd => class_is nd "CLIPTextEncode" || class_is nd "KSampler"
  | _ => false
  end.

Definition is_sampler (item : string * json) : bool :=
  match snd item with
  | JObj nd => class_is nd "KSampler"
  | _ => false
  end.

(** The seeds reported in the printed lines, in order, with their nodes. *)
Fixpoint seed_reports (lines : list line) : list (string * json) :=
  match lines with
  | [] => []
  | RandomizedSeed node_id seed :: rest => (node_id, seed) :: seed_reports rest
  | _ :: rest => seed_reports rest
  end.

(** [n] slashes. *)
Fixpoint slashes (n : nat) : string :=
  match n with
  | O => EmptyString
  | S k => String "/" (slashes k)
  end.

Fixpoint ends_with_slash (s : string) : bool :=
  match s with
  | EmptyString => false
  | String c EmptyString => Ascii.eqb c "/"
  | String _ t => ends_with_slash t
  end.

(** A turn the watch gets past: the deadline check at its head finds the
    clock within the deadline, and its receive is passed over. *)
Definition passed_over (prompt_id : string) (timeout : Z) (start_time : float)
           (t : turn) : Prop :=
  deadline_passed start_time (clock t) timeout = false /\
  ignorable prompt_id (incoming t) = true.

(** The handler's calls when the watch and the fetch are the two methods of
    the client, run against a websocket and a world. *)
Definition watches_and_fetches
           (path_join : string -> string -> string) (repr : json -> string)
           (socket : string -> connection) (w : world) (output_dir : string)
           (c : calls) : Prop :=
  (forall prompt_id,
     wait c prompt_id = wait_for_completion prompt_id default_timeout
                                            (socket prompt_id)) /\
  (forall prompt_id files,
     download c prompt_id files =
     download_image path_join repr w files prompt_id output_dir).

(** Some call of the handler raised [e]: the first that did not return. *)
Definition some_call_raised (c : calls) (request : GenerateImageRequest)
           (files : disk) (e : exn) : Prop :=
  load c = Raise e \/
  (exists workflow,
     load c = Return workflow /\
     (modify c workflow (prompt request) (negative_prompt request) = Raise e \/
      exists modified_workflow,
        modify c workflow (prompt request) (negative_prompt request)
        = Return modified_workflow /\
        (queue c modified_workflow = Raise e \/
         exists id,
           queue c modified_workflow = Return id /\
           (wait c id = Some (Raise e) \/
            exists b files',
              wait c id = Some (Return b) /\
              download c id files = (files', Raise e))))).

(* ================================================================= *)
(** ** Concrete graphs, runs and worlds *)

Definition text_node (text : json) : json :=
  JObj [("class_type", JStr "CLIPTextEncode");
        ("inputs", JObj [("text", text); ("clip", JArr [JStr "4"; JInt 1])])].

Definition sampler_node : json :=
  JObj [("class_type", JStr "KSampler");
        ("inputs", JObj [("seed", JInt 5); ("steps", JInt 20);
                         ("cfg", JFloat 8)])].

(** A template with a negative slot, a positive slot and a sampler. *)
Definition two_slot_template : dict :=
  [("6", text_node (JStr "blurry, BAD anatomy"));
   ("7", text_node (JStr "a photo of a cat"));
   ("3", sampler_node)].

(** A template whose text input is wired to the output of node "5". *)
Definition linked_text_template : dict :=
  [("6", text_node (JArr [JStr "5"; JInt 0]))].

(** A template whose nodes have no "inputs" key. *)
Definition bare_template : dict :=
  [("6", JObj [("class_type", JStr "CLIPTextEncode")]);
   ("3", JObj [("class_type", JStr "KSampler")])].

Definition some_uuids (k : nat) : Z := 2 ^ 100 + 12345 + 7 * Z.of_nat k.

Definition executing (prompt_id : string) (node : json) : dict :=
  [("type", JStr "executing");
   ("data", JObj [("node", node); ("prompt_id", JStr prompt_id)])].

Definition execution_error (prompt_id : string) : dict :=
  [("type", JStr "execution_error");
   ("data", JObj [("prompt_id", JStr prompt_id);
                  ("exception_message", JStr "out of memory")])].

Definition status_event : dict :=
  [("type", JStr "status");
   ("data", JObj [("status", JObj [("exec_info", JObj [("queue_remaining", JInt 1)])])])].

(** Turns within the default deadline of a watch of "J" begun at 0: polls
    that time out, progress of "J", a status message, the end of job "K". *)
Definition quiet_turns : list turn :=
  [Turn 0 5 RecvTimeout;
   Turn 5 2 (Received (Json (JObj (executing "J" (JStr "3")))));
   Turn 7 5 RecvTimeout;
   Turn 298 2 (Received (Json (JObj status_event)));
   Turn 300 0.5 (Received (Json (JObj (executing "K" JNull))))].

(** The history of job "J" with one output that lists [images]. *)
Definition history_with (images : json) : dict :=
  [("J", JObj [("outputs", JObj [("9", JObj [("images", images)])])])].

Definition fox_reference : json :=
  JObj [("filename", JStr "fox.png"); ("subfolder", JStr "");
        ("type", JStr "output")].

Definition png : bytes := [Byte.x89; Byte.x50; Byte.x4e; Byte.x47].

(** An upstream that answers every request, with [hist] as the history. *)
Definition serving (hist : dict) : world :=
  World (fun _ => Replies (Json (JObj hist))) (fun _ => Replies png)
        (fun _ => true) (fun _ _ => Saved).

(** An upstream that cannot be reached. *)
Definition unreachable : world :=
  World (fun _ => HttpFails None) (fun _ => HttpFails None) (fun _ => true)
        (fun _ _ => Saved).

(** An upstream that serves the history and fails the download with [c]. *)
Definition failing_download (hist : dict) (c : option Z) : world :=
  World (fun _ => Replies (Json (JObj hist))) (fun _ => HttpFails c)
        (fun _ => true) (fun _ _ => Saved).

(** An upstream that serves everything, on a machine whose disk is full
    after [kept] bytes of a file. *)
Definition disk_full (hist : dict) (kept : nat) : world :=
  World (fun _ => Replies (Json (JObj hist))) (fun _ => Replies png)
        (fun _ => true) (fun _ _ => WriteFails kept OSError).

(** A template with a note, two samplers and a text slot. *)
Definition two_sampler_template : dict :=
  [("1", JObj [("class_type", JStr "Note")]);
   ("3", sampler_node);
   ("7", text_node (JStr "a photo of a cat"));
   ("8", JStr "not a node");
   ("9", sampler_node)].

(** A template whose second text slot has a number as text. *)
Definition half_good_template : dict :=
  [("6", text_node (JStr "bad hands"));
   ("7", text_node (JInt 7));
   ("3", sampler_node)].

(** A template without text or sampler nodes. *)
Definition plain_template : dict :=
  [("1", JObj [("class_type", JStr "Note")]); ("2", JNull)].

(** A websocket that reports one step of job [id] and then its end. *)
Definition fox_socket (id : string) : connection :=
  Connected 0
    [Turn 1 1 (Received (Json (JObj (executing id (JStr "3")))));
     Turn 2 1 (Received (Json (JObj (executing id JNull))))].

Definition fox_request : GenerateImageRequest :=
  Request "a red fox" (Some ""%string).

(** The calls of a request that goes through: the template is loaded and
    mutated, the upstream names the job "J", reports its end and serves
    "fox.png". *)
Definition fox_run : calls :=
  Calls (load_workflow "./workflow_api.json"
                       (Loaded (Json (JObj two_slot_template))))
        (fun _ _ _ =>
           Return (JObj (graph (modify_workflow some_uuids two_slot_template
                                                "a red fox" ""))))
        (fun _ => Return "J"%string)
        (fun id => wait_for_completion id default_timeout (fox_socket id))
        (fun id files =>
           download_image plain_join no_repr
                          (serving (history_with (JArr [fox_reference])))
                          files id "output").

(** The calls of a request whose job fails on the upstream. *)
Definition failing_run : calls :=
  Calls (load fox_run) (modify fox_run) (queue fox_run)
        (fun id =>
           wait_for_completion id default_timeout
             (Connected 0
                [Turn 1 1 (Received (Json (JObj (execution_error id))))]))
        (download fox_run).

(* ================================================================= *)
(** ** Facts about dicts *)

Lemma dict_get_set_same (k : string) (v : json) (d : dict) :
  dict_get k (dict_set k v d) = Some v.
Proof.
  induction d as [|[k' v'] d IH]; simpl.
  - now rewrite String.eqb_refl.
  - destruct (String.eqb k k') eqn:E; simpl; rewrite E; auto.
Qed.

Lemma dict_get_set_other (k k' : string) (v : json) (d : dict) :
  k' <> k -> dict_get k' (dict_set k v d) = dict_get k' d.
Proof.
  intros Hne. induction d as [|[k0 v0] d IH]; simpl.
  - apply String.eqb_neq in Hne. now rewrite Hne.
  - destruct (String.eqb k k0) eqn:E; simpl.
    + apply String.eqb_eq in E. subst k0.
      apply String.eqb_neq in Hne. now rewrite Hne.
    + now rewrite IH.
Qed.

Lemma dict_set_keys_present (k : string) (v v0 : json) (d : dict) :
  dict_get k d = Some v0 -> map fst (dict_set k v d) = map fst d.
Proof.
  induction d as [|[k' v'] d IH]; simpl; [discriminate|].
  destruct (String.eqb k k') eqn:E; simpl; auto.
  intros H. now rewrite IH.
Qed.

Lemma agree_except_set (k : string) (v : json) (d : dict) :
  agree_except k d (dict_set k v d).
Proof. intros k' Hne. now apply dict_get_set_other. Qed.

(* ================================================================= *)
(** ** The Workflow Mutator *)

Section MutatorFacts.

Variable uuid4_int : nat -> Z.
Variables positive_prompt negative_prompt : string.

Local Abbreviation visit :=
  (Mutator.visit uuid4_int positive_prompt negative_prompt).
Local Abbreviation visit_items :=
  (Mutator.visit_items uuid4_int positive_prompt negative_prompt).
Local Abbreviation visited :=
  (visited uuid4_int positive_prompt negative_prompt).

Lemma visit_visited node_id v st :
  visited node_id st v (fst (visit node_id v st)) (snd (visit node_id v st)).
Proof.
  unfold Mutator.visit.
  destruct v as [| | | | |l|nd];
    try (simpl; apply Skipped; intros; discriminate).
  destruct (class_is nd "CLIPTextEncode") eqn:Hc.
  - destruct (inputs_of nd) as [inputs aliased] eqn:Hin.
    destruct inputs as [| | | | |l|ins];
      try (simpl; eapply TextNodeFails; eauto; intros; discriminate).
    destruct (dict_get_default "text" (JStr "") ins) eqn:Ht;
      try (simpl; eapply TextNodeFails; eauto;
           intros ins' E; injection E as <-; rewrite Ht; intros; discriminate).
    destruct (negative_slot s) eqn:Hn; simpl;
      eapply TextNode; eauto; rewrite Hn; reflexivity.
  - destruct (class_is nd "KSampler") eqn:Hk.
    + destruct (inputs_of nd) as [inputs aliased] eqn:Hin.
      destruct inputs as [| | | | |l|ins];
        try (simpl; eapply SeedNodeFails; eauto; intros; discriminate).
      simpl. eapply SeedNode; eauto.
    + simpl. apply Skipped. intros nd' E. injection E as <-. auto.
Qed.

Lemma extends_refl st : extends st st.
Proof.
  repeat split; auto. exists []. rewrite app_nil_r. auto.
Qed.

Lemma extends_trans st1 st2 st3 :
  extends st1 st2 -> extends st2 st3 -> extends st1 st3.
Proof.
  intros (M1 & (m1 & E1 & N1) & D1) (M2 & (m2 & E2 & N2) & D2).
  repeat split; auto; try lia.
  exists (m1 ++ m2). rewrite E2, E1, app_assoc. split; auto.
  intros H. apply in_app_or in H. tauto.
Qed.

Lemma extends_say_modified l st :
  l <> WarningNoNodes -> extends st (set_modified (say l st)).
Proof.
  intros Hl. repeat split; simpl; auto.
  exists [l]. split; auto. intros [H|[]]. congruence.
Qed.

Lemma extends_draw st : extends st (draw st).
Proof.
  repeat split; simpl; auto. exists []. rewrite app_nil_r. auto.
Qed.

Lemma visited_extends node_id st v st' r :
  visited node_id st v st' r -> extends st st'.
Proof.
  intros H. destruct H; try apply extends_refl; try apply extends_draw.
  - apply extends_say_modified.
    destruct (negative_slot current_text); injection H2 as _ ->; discriminate.
  - eapply extends_trans; [apply extends_draw|].
    apply extends_say_modified. discriminate.
Qed.

Lemma visit_extends node_id v st st' r :
  visit node_id v st = (st', r) -> extends st st'.
Proof.
  intros E. pose proof (visit_visited node_id v st) as H.
  rewrite E in H. simpl in H. eapply visited_extends; eauto.
Qed.

(** The loop only moves the locals forward. *)
Lemma visit_items_extends items :
  forall st items' st' r,
    visit_items items st = (items', st', r) -> extends st st'.
Proof.
  induction items as [|[node_id v] rest IH]; intros st items' st' r E.
  - injection E as <- <- <-. apply extends_refl.
  - cbn [Mutator.visit_items] in E.
    destruct (visit node_id v st) as [st1 [v1|e]] eqn:Ev.
    + destruct (visit_items rest st1) as [[rest' st2] r2] eqn:Er.
      injection E as <- <- <-.
      eapply extends_trans; [eapply visit_extends; eauto|eauto].
    + injection E as <- <- <-. eapply visit_extends; eauto.
Qed.

Lemma with_inputs_slot nd ins aliased k v :
  inputs_of nd = (JObj ins, aliased) ->
  let nd' := with_inputs aliased nd (dict_set k v ins) in
  nd' = nd \/
  (map fst nd' = map fst nd /\ agree_except "inputs" nd nd' /\
   dict_get "inputs" nd = Some (JObj ins) /\
   dict_get "inputs" nd' = Some (JObj (dict_set k v ins))).
Proof.
  intros H nd'. subst nd'. unfold inputs_of in H.
  destruct (dict_get "inputs" nd) as [w|] eqn:Hin.
  - injection H as -> <-. right. simpl.
    repeat split.
    + eapply dict_set_keys_present; eauto.
    + apply agree_except_set.
    + apply dict_get_set_same.
  - injection H as _ <-. now left.
Qed.

Lemma visited_only_slot node_id st v st' v' :
  visited node_id st v st' (Return v') -> only_slot_changed v v'.
Proof.
  intros H. inversion H; subst.
  - now left.
  - destruct (with_inputs_slot nd ins aliased "text" (JStr new_text))
      as [E|(K & A & I & I')]; auto.
    + left. now rewrite E.
    + right. exists nd. eexists. exists ins. eexists.
      repeat split; eauto. left. split; auto. apply agree_except_set.
  - destruct (with_inputs_slot nd ins aliased "seed"
                (JInt (seed_of uuid4_int (drawn st))))
      as [E|(K & A & I & I')]; auto.
    + left. now rewrite E.
    + right. exists nd. eexists. exists ins. eexists.
      repeat split; eauto. right. split; auto. apply agree_except_set.
Qed.

(** Whatever way the loop ends, it leaves every item under its key, with
    at most its slot changed. *)
Lemma visit_items_frame items :
  forall st items' st' r,
    visit_items items st = (items', st', r) ->
    Forall2 same_id_only_slot_changed items items'.
Proof.
  induction items as [|[node_id v] rest IH]; intros st items' st' r E.
  - injection E as <- <- <-. constructor.
  - cbn [Mutator.visit_items] in E.
    pose proof (visit_visited node_id v st) as Hv.
    destruct (visit node_id v st) as [st1 [v1|e]] eqn:Ev; simpl in Hv.
    + destruct (visit_items rest st1) as [[rest' st2] r2] eqn:Er.
      injection E as <- <- <-. constructor; eauto.
      split; simpl; auto. eapply visited_only_slot; eauto.
    + injection E as <- <- <-. constructor.
      * split; simpl; auto. now left.
      * clear. induction rest as [|a rest IH]; constructor; auto.
        split; auto. now left.
Qed.

(** When the loop runs to its end, the body ran on every item, between
    two states of the locals that lie between the first and the last. *)
Lemma visit_items_each items :
  forall st items' st',
    visit_items items st = (items', st', None) ->
    forall i node_id v,
      nth_error items i = Some (node_id, v) ->
      exists sti sti' v',
        nth_error items' i = Some (node_id, v') /\
        extends st sti /\
        visited node_id sti v sti' (Return v') /\
        extends sti' st'.
Proof.
  induction items as [|[id0 v0] rest IH]; intros st items' st' E i node_id v Hi.
  - destruct i; discriminate.
  - cbn [Mutator.visit_items] in E.
    pose proof (visit_visited id0 v0 st) as Hv.
    destruct (visit id0 v0 st) as [st1 [v1|e]] eqn:Ev; simpl in Hv.
    + destruct (visit_items rest st1) as [[rest' st2] r2] eqn:Er.
      injection E as <- <- ->.
      destruct i as [|i]; simpl in Hi.
      * injection Hi as <- <-. exists st, st1, v1. simpl.
        split; [reflexivity|]. split; [apply extends_refl|].
        split; [exact Hv|]. eapply visit_items_extends; eauto.
      * destruct (IH _ _ _ Er _ _ _ Hi) as (sti & sti' & v' & N & X1 & V & X2).
        exists sti, sti', v'. simpl.
        split; [exact N|]. split; [|split; [exact V|exact X2]].
        eapply extends_trans; [eapply visited_extends; eauto|exact X1].
    + discriminate.
Qed.

Lemma seed_of_u32 k : is_u32 (JInt (seed_of uuid4_int k)).
Proof.
  exists (seed_of uuid4_int k). split; auto.
  unfold seed_of. apply Z.mod_pos_bound. reflexivity.
Qed.

Lemma class_is_inj nd a b :
  class_is nd a = true -> class_is nd b = true -> a = b.
Proof.
  unfold class_is, eq_str.
  destruct (dict_get_default "class_type" (JStr "") nd); try discriminate.
  intros Ha Hb. apply String.eqb_eq in Ha, Hb. congruence.
Qed.

(** A line printed by the loop body names a seed only if it is the
    reduced identifier of some draw. *)
Lemma visited_seed_lines node_id st v st' r :
  visited node_id st v st' r ->
  forall id seed,
    In (RandomizedSeed id seed) (stdout st') ->
    In (RandomizedSeed id seed) (stdout st) \/
    exists k, seed = JInt (seed_of uuid4_int k).
Proof.
  intros H id seed Hin. destruct H; simpl in *; auto.
  - apply in_app_or in Hin. destruct Hin as [Hin|[Hin|[]]]; auto.
    destruct (negative_slot current_text); injection H2 as _ ->; discriminate.
  - apply in_app_or in Hin. destruct Hin as [Hin|[Hin|[]]]; auto.
    injection Hin as _ <-. right. eauto.
Qed.

Lemma visit_items_seed_lines items :
  forall st items' st' r,
    visit_items items st = (items', st', r) ->
    forall id seed,
      In (RandomizedSeed id seed) (stdout st') ->
      In (RandomizedSeed id seed) (stdout st) \/
      exists k, seed = JInt (seed_of uuid4_int k).
Proof.
  induction items as [|[id0 v0] rest IH]; intros st items' st' r E id seed Hin.
  - injection E as <- <- <-. auto.
  - cbn [Mutator.visit_items] in E.
    pose proof (visit_visited id0 v0 st) as Hv.
    destruct (visit id0 v0 st) as [st1 [v1|e]] eqn:Ev; simpl in Hv.
    + destruct (visit_items rest st1) as [[rest' st2] r2] eqn:Er.
      injection E as <- <- <-.
      destruct (IH _ _ _ _ Er _ _ Hin) as [H1|H1]; auto.
      eapply visited_seed_lines; eauto.
    + injection E as <- <- <-. eapply visited_seed_lines; eauto.
Qed.

(** The loop raises nothing but the two errors of the loop body. *)
Lemma visit_items_raises items :
  forall st items' st' e,
    visit_items items st = (items', st', Some e) ->
    e = Other AttributeError \/ e = Other TypeError.
Proof.
  induction items as [|[id0 v0] rest IH]; intros st items' st' e E.
  - discriminate.
  - cbn [Mutator.visit_items] in E.
    pose proof (visit_visited id0 v0 st) as Hv.
    destruct (visit id0 v0 st) as [st1 [v1|e1]] eqn:Ev; simpl in Hv.
    + destruct (visit_items rest st1) as [[rest' st2] r2] eqn:Er.
      injection E as <- <- ->. eauto.
    + injection E as <- <- <-. inversion Hv; auto.
Qed.

(** What a visit that returns did, by the class of the node. *)
Lemma visited_text_node node_id st nd st' v' :
  visited node_id st (JObj nd) st' (Return v') ->
  class_is nd "CLIPTextEncode" = true ->
  exists ins aliased current_text,
    inputs_of nd = (JObj ins, aliased) /\
    dict_get_default "text" (JStr "") ins = JStr current_text /\
    v' = JObj (with_inputs aliased nd
                 (dict_set "text"
                    (JStr (if negative_slot current_text
                           then negative_prompt else positive_prompt)) ins)) /\
    st' = set_modified
            (say (if negative_slot current_text
                  then SetNegative node_id else SetPositive node_id) st).
Proof.
  intros V Hc. inversion V; subst.
  - match goal with H : forall nd0, _ = _ -> _ |- _ =>
      destruct (H nd eq_refl); congruence end.
  - match goal with H : (_, _) = _ |- _ => rename H into Hp end.
    exists ins, aliased, current_text.
    destruct (negative_slot current_text); injection Hp as -> ->; auto.
  - congruence.
Qed.

Lemma visited_seed_node node_id st nd st' v' :
  visited node_id st (JObj nd) st' (Return v') ->
  class_is nd "KSampler" = true ->
  exists ins aliased,
    inputs_of nd = (JObj ins, aliased) /\
    v' = JObj (with_inputs aliased nd
                 (dict_set "seed" (JInt (seed_of uuid4_int (drawn st))) ins)) /\
    st' = set_modified
            (say (RandomizedSeed node_id
                    (JInt (seed_of uuid4_int (drawn st)))) (draw st)).
Proof.
  intros V Hc. inversion V; subst.
  - match goal with H : forall nd0, _ = _ -> _ |- _ =>
      destruct (H nd eq_refl); congruence end.
  - match goal with H : class_is nd "CLIPTextEncode" = true |- _ =>
      pose proof (class_is_inj _ _ _ H Hc); discriminate end.
  - eauto.
Qed.

(** [modify_workflow] in terms of its loop. *)
Lemma modify_workflow_loop workflow :
  exists items' st r,
    visit_items workflow (Locals false [] 0) = (items', st, r) /\
    graph (modify_workflow uuid4_int workflow positive_prompt negative_prompt)
      = items' /\
    raised (modify_workflow uuid4_int workflow positive_prompt negative_prompt)
      = r /\
    printed (modify_workflow uuid4_int workflow positive_prompt negative_prompt)
      = stdout (match r with
                | Some _ => st
                | None => if modified st then st else say WarningNoNodes st
                end).
Proof.
  unfold modify_workflow.
  destruct (visit_items workflow (Locals false [] 0)) as [[items' st] r].
  exists items', st, r. destruct r; auto.
Qed.

End MutatorFacts.

(** *** Frame of the mutation *)

(** C4.  Whatever the graph and the prompts, the graph [modify_workflow]
    leaves (the one it returns when it returns) has the node identifiers of
    the loaded graph, in the same order, and each node is either what it was
    or differs only in the "text" input of a CLIPTextEncode node or the
    "seed" input of a KSampler node. *)
Theorem mutation_changes_only_slots
        (uuid4_int : nat -> Z) (workflow : dict)
        (positive_prompt negative_prompt : string) :
  let after :=
    graph (modify_workflow uuid4_int workflow positive_prompt negative_prompt) in
  map fst after = map fst workflow /\
  Forall2 same_id_only_slot_changed workflow after.
Proof.
  intros after.
  destruct (modify_workflow_loop uuid4_int positive_prompt negative_prompt workflow)
    as (items' & st & r & E & G & _).
  subst after. rewrite G.
  pose proof (visit_items_frame _ _ _ _ _ _ _ _ E) as F.
  split; auto.
  clear E G. induction F as [|a b l l' [H _] _ IH]; simpl; congruence.
Qed.

(** *** The seed *)

(** C5.  Every seed the mutator writes is an identifier drawn from
    [uuid.uuid4()] reduced modulo 2^32, hence a value in [0, 2^32): this
    holds of every seed the mutator reports, and, when it returns, of the
    "seed" input of every KSampler node that has an "inputs" mapping. *)
Theorem written_seed_is_u32
        (uuid4_int : nat -> Z) (workflow : dict)
        (positive_prompt negative_prompt : string) :
  let out := modify_workflow uuid4_int workflow positive_prompt negative_prompt in
  (forall id seed, In (RandomizedSeed id seed) (printed out) ->
     (exists k, seed = JInt (uuid4_int k mod 2 ^ 32)) /\ is_u32 seed) /\
  (raised out = None ->
   forall i id nd ins,
     nth_error workflow i = Some (id, JObj nd) ->
     class_is nd "KSampler" = true ->
     dict_get "inputs" nd = Some (JObj ins) ->
     exists nd' ins' k,
       nth_error (graph out) i = Some (id, JObj nd') /\
       dict_get "inputs" nd' = Some (JObj ins') /\
       dict_get "seed" ins' = Some (JInt (uuid4_int k mod 2 ^ 32)) /\
       0 <= uuid4_int k mod 2 ^ 32 < 2 ^ 32).
Proof.
  intros out.
  destruct (modify_workflow_loop uuid4_int positive_prompt negative_prompt workflow)
    as (items' & st & r & E & G & R & P).
  fold out in G, R, P. split.
  - intros id seed Hin. rewrite P in Hin.
    assert (Hst : In (RandomizedSeed id seed) (stdout st)).
    { destruct r; auto. destruct (modified st); auto.
      simpl in Hin. apply in_app_or in Hin.
      destruct Hin as [|[|[]]]; auto; discriminate. }
    destruct (visit_items_seed_lines _ _ _ _ _ _ _ _ E _ _ Hst) as [[]|[k ->]].
    split; [now exists k|apply seed_of_u32].
  - intros Hr i id nd ins Hi Hc Hin. rewrite R in Hr. rewrite Hr in E.
    destruct (visit_items_each _ _ _ _ _ _ _ E _ _ _ Hi)
      as (sti & sti' & v' & N & _ & V & _).
    rewrite G.
    destruct (visited_seed_node _ _ _ _ _ _ _ _ V Hc)
      as (ins0 & aliased & I & -> & _).
    unfold inputs_of in I. rewrite Hin in I. injection I as <- <-.
    simpl in N. eexists. eexists. exists (drawn sti).
    split; [exact N|]. split; [apply dict_get_set_same|].
    split; [apply dict_get_set_same|].
    apply Z.mod_pos_bound. reflexivity.
Qed.

(** *** Nodes without an "inputs" mapping *)

(** C8.  When the mutator returns, a CLIPTextEncode or KSampler node that
    has no "inputs" key is in the returned graph exactly as it was; the
    prompt or the seed was nevertheless computed and reported for it, and
    the warning about missing nodes is not printed. *)
Theorem node_without_inputs_is_left_alone
        (uuid4_int : nat -> Z) (workflow : dict)
        (positive_prompt negative_prompt : string)
        (i : nat) (id : string) (nd : dict) :
  let out := modify_workflow uuid4_int workflow positive_prompt negative_prompt in
  raised out = None ->
  nth_error workflow i = Some (id, JObj nd) ->
  class_is nd "CLIPTextEncode" = true \/ class_is nd "KSampler" = true ->
  dict_get "inputs" nd = None ->
  nth_error (graph out) i = Some (id, JObj nd) /\
  ~ In WarningNoNodes (printed out) /\
  (class_is nd "CLIPTextEncode" = true -> In (SetPositive id) (printed out)) /\
  (class_is nd "KSampler" = true ->
   exists seed, In (RandomizedSeed id seed) (printed out)).
Proof.
  intros out Hr Hi Hc Hin.
  destruct (modify_workflow_loop uuid4_int positive_prompt negative_prompt workflow)
    as (items' & st & r & E & G & R & P).
  fold out in G, R, P. rewrite R in Hr. rewrite Hr in E, P. clear R Hr r.
  destruct (visit_items_each _ _ _ _ _ _ _ E _ _ _ Hi)
    as (sti & sti' & v' & N & X1 & V & (M & (more & L & W) & _)).
  destruct (visit_items_extends _ _ _ _ _ _ _ _ E)
    as (_ & (all & L0 & W0) & _).
  simpl in L0.
  assert (Hi0 : inputs_of nd = (JObj [], false))
    by (unfold inputs_of; now rewrite Hin).
  assert (Hmod : modified sti' = true /\ v' = JObj nd /\
                 (class_is nd "CLIPTextEncode" = true ->
                  In (SetPositive id) (stdout sti')) /\
                 (class_is nd "KSampler" = true ->
                  exists seed, In (RandomizedSeed id seed) (stdout sti'))).
  { destruct Hc as [Hc|Hc].
    - destruct (visited_text_node _ _ _ _ _ _ _ _ V Hc)
        as (ins & aliased & cur & I & T & -> & ->).
      rewrite Hi0 in I. injection I as <- <-. simpl in T. injection T as <-.
      simpl. repeat split; auto.
      + intros _. apply in_or_app. right. now left.
      + intros Hk. pose proof (class_is_inj _ _ _ Hc Hk). discriminate.
    - destruct (visited_seed_node _ _ _ _ _ _ _ _ V Hc)
        as (ins & aliased & I & -> & ->).
      rewrite Hi0 in I. injection I as <- <-.
      simpl. repeat split; auto.
      + intros Hk. pose proof (class_is_inj _ _ _ Hc Hk). discriminate.
      + intros _. eexists. apply in_or_app. right. now left. }
  destruct Hmod as (Hm & -> & Ht & Hk).
  rewrite (M Hm) in P. rewrite G, P, L.
  split; [exact N|]. split.
  - rewrite <- L, L0. exact W0.
  - split.
    + intros H. apply in_or_app. left. auto.
    + intros H. destruct (Hk H) as [seed Hs]. exists seed.
      apply in_or_app. left. auto.
Qed.

(** *** Text inputs that are not strings *)

(** C9.  If some CLIPTextEncode node of the graph has an "inputs" mapping
    whose "text" entry is not a string, [modify_workflow] does not return:
    it raises an [AttributeError] or a [TypeError], which nothing in it
    handles. *)
Theorem text_that_is_not_str_raises
        (uuid4_int : nat -> Z) (workflow : dict)
        (positive_prompt negative_prompt : string)
        (i : nat) (id : string) (nd ins : dict) (text : json) :
  nth_error workflow i = Some (id, JObj nd) ->
  class_is nd "CLIPTextEncode" = true ->
  dict_get "inputs" nd = Some (JObj ins) ->
  dict_get "text" ins = Some text ->
  (forall s, text <> JStr s) ->
  let out := modify_workflow uuid4_int workflow positive_prompt negative_prompt in
  raised out = Some (Other AttributeError) \/
  raised out = Some (Other TypeError).
Proof.
  intros Hi Hc Hin Ht Hns out.
  destruct (modify_workflow_loop uuid4_int positive_prompt negative_prompt workflow)
    as (items' & st & r & E & G & R & P).
  fold out in G, R, P. rewrite R. destruct r as [e|].
  - destruct (visit_items_raises _ _ _ _ _ _ _ _ E); subst; auto.
  - exfalso.
    destruct (visit_items_each _ _ _ _ _ _ _ E _ _ _ Hi)
      as (sti & sti' & v' & N & _ & V & _).
    destruct (visited_text_node _ _ _ _ _ _ _ _ V Hc)
      as (ins0 & aliased & cur & I & T & _).
    unfold inputs_of in I. rewrite Hin in I. injection I as <- <-.
    unfold dict_get_default in T. rewrite Ht in T. now apply (Hns cur).
Qed.

(** *** Text slots *)

(** C3, as the code has it.  When the mutator returns, every CLIPTextEncode
    node that has an "inputs" mapping had a string as its current text (no
    "text" entry counting as the empty string), and its "text" input is now
    the negative prompt if that text, lowered, contains "negative" or "bad",
    and the positive prompt otherwise. *)
Theorem text_slot_gets_its_prompt
        (uuid4_int : nat -> Z) (workflow : dict)
        (positive_prompt negative_prompt : string)
        (i : nat) (id : string) (nd ins : dict) :
  let out := modify_workflow uuid4_int workflow positive_prompt negative_prompt in
  raised out = None ->
  nth_error workflow i = Some (id, JObj nd) ->
  class_is nd "CLIPTextEncode" = true ->
  dict_get "inputs" nd = Some (JObj ins) ->
  exists current_text nd' ins',
    dict_get_default "text" (JStr "") ins = JStr current_text /\
    nth_error (graph out) i = Some (id, JObj nd') /\
    dict_get "inputs" nd' = Some (JObj ins') /\
    dict_get "text" ins' =
      Some (JStr (if contains "negative" (lower current_text)
                     || contains "bad" (lower current_text)
                  then negative_prompt else positive_prompt)).
Proof.
  intros out Hr Hi Hc Hin.
  destruct (modify_workflow_loop uuid4_int positive_prompt negative_prompt workflow)
    as (items' & st & r & E & G & R & P).
  fold out in G, R, P. rewrite R in Hr. rewrite Hr in E.
  destruct (visit_items_each _ _ _ _ _ _ _ E _ _ _ Hi)
    as (sti & sti' & v' & N & _ & V & _).
  destruct (visited_text_node _ _ _ _ _ _ _ _ V Hc)
    as (ins0 & aliased & cur & I & T & -> & _).
  unfold inputs_of in I. rewrite Hin in I. injection I as <- <-.
  exists cur. eexists. eexists. rewrite G.
  split; [exact T|]. split; [exact N|].
  split; [apply dict_get_set_same|]. apply dict_get_set_same.
Qed.

(* ================================================================= *)
(** ** The Completion Watcher *)

(** What [on_message] does with a tagged message whose payload is a
    mapping. *)
Lemma on_message_tagged (prompt_id : string) (event payload : dict) :
  payload_of event = JObj payload ->
  on_message prompt_id (Json (JObj event)) =
    if tag_is event "executing" then
      if names_job prompt_id payload && no_node payload
      then Return execution_completed else Return keep_watching
    else if tag_is event "execution_error" then
      if names_job prompt_id payload
      then Raise (Http (HTTPException 500
                    [FStr "ComfyUI execution error: "; FJson (JObj payload)]))
      else Return keep_watching
    else Return keep_watching.
Proof.
  unfold payload_of, on_message, tag_is, names_job, no_node. simpl.
  intros ->. simpl. reflexivity.
Qed.

Lemma on_message_other_tag (prompt_id : string) (event : dict) :
  tag_is event "executing" = false ->
  tag_is event "execution_error" = false ->
  on_message prompt_id (Json (JObj event)) = Return keep_watching.
Proof.
  unfold on_message, tag_is. simpl. intros -> ->. reflexivity.
Qed.

Lemma on_message_ignorable (prompt_id : string) (message : decoded) :
  ignorable prompt_id (Received message) = true ->
  on_message prompt_id message = Return keep_watching.
Proof.
  destruct message as [data|raw]; [|discriminate].
  destruct data as [| | | | | |event]; try discriminate.
  unfold ignorable, terminating. intros H.
  destruct (tag_is event "executing") eqn:Te; simpl in H.
  - destruct (payload_of event) as [| | | | | |payload] eqn:Hp; try discriminate.
    rewrite (on_message_tagged _ _ _ Hp), Te.
    destruct (names_job prompt_id payload); simpl in *; auto.
    destruct (no_node payload); simpl in *; auto; discriminate.
  - destruct (tag_is event "execution_error") eqn:Tx; simpl in H.
    + destruct (payload_of event) as [| | | | | |payload] eqn:Hp; try discriminate.
      rewrite (on_message_tagged _ _ _ Hp), Te, Tx.
      destruct (names_job prompt_id payload); simpl in *; auto; discriminate.
    + now apply on_message_other_tag.
Qed.

(** A turn that passes the deadline check and whose receive is passed over
    leaves the watch where it was, with the same start and the same
    timeout. *)
Lemma watch_ignorable (prompt_id : string) (timeout : Z) (start_time : float)
      (t : turn) (rest : list turn) :
  deadline_passed start_time (clock t) timeout = false ->
  ignorable prompt_id (incoming t) = true ->
  watch prompt_id timeout start_time (t :: rest) =
  watch prompt_id timeout start_time rest.
Proof.
  intros Hd Hi. simpl. rewrite Hd.
  destruct (incoming t) as [message| |e]; try discriminate; auto.
  now rewrite (on_message_ignorable _ _ Hi).
Qed.

(** *** One received event *)


(** *** Frames that are not JSON *)

(** C10.  A frame that [json.loads] rejects, received in a turn that passed
    the deadline check, ends the watch at once, whatever would have
    followed: the caller gets an [HTTPException] with status 500 whose
    detail is "WebSocket error: " and the decoding error. *)
Theorem undecodable_frame_aborts_watch
        (prompt_id : string) (timeout : Z) (start_time now : float)
        (took : float) (raw : string) (rest : list turn) :
  deadline_passed start_time now timeout = false ->
  wait_for_completion prompt_id timeout
    (Connected start_time (Turn now took (Received (NotJson raw)) :: rest)) =
  Some (Raise (Http (HTTPException 500
          [FStr "WebSocket error: "; FExn JSONDecodeError]))).
Proof.
  intros Hd.
  cbn [wait_for_completion watch clock incoming]. now rewrite Hd.
Qed.

(** *** The deadline *)

(** C2, as the code has it.  The deadline is checked at the head of every
    turn against the one start time, by the test [deadline_passed]: the
    difference of the clock reading and the start reading, as the machine
    subtracts two binary64 floats, is compared with [timeout].  If every
    receive before some turn is passed over (it timed out, or brought a
    well-formed message that is not terminating for the job) and the test
    at the head of that turn finds the deadline passed, the watch ends with
    the 504 "Timeout" error, whatever the receives brought and however many
    they were; and as long as the test of each such turn finds the clock
    within the deadline the watch is still running. *)
Theorem deadline_ends_watch
        (prompt_id : string) (timeout : Z) (start_time : float)
        (before : list turn) :
  Forall (fun t => ignorable prompt_id (incoming t) = true) before ->
  (forall late rest,
     deadline_passed start_time (clock late) timeout = true ->
     wait_for_completion prompt_id timeout
       (Connected start_time (before ++ late :: rest)) =
     Some (Raise timed_out)) /\
  (Forall (fun t => deadline_passed start_time (clock t) timeout = false) before ->
   wait_for_completion prompt_id timeout (Connected start_time before) = None).
Proof.
  intros Hi. split.
  - intros late rest Hl.
    cbn [wait_for_completion].
    induction Hi as [|t before Ht _ IH].
    + simpl. now rewrite Hl.
    + destruct (deadline_passed start_time (clock t) timeout) eqn:Hd.
      * simpl. now rewrite Hd.
      * change ((t :: before) ++ late :: rest)
          with (t :: (before ++ late :: rest)).
        rewrite (watch_ignorable _ _ _ _ _ Hd Ht). exact IH.
  - intros Hw. cbn [wait_for_completion].
    induction Hi as [|t before Ht _ IH]; auto.
    inversion Hw as [|? ? Hc Hw']; subst.
    rewrite (watch_ignorable _ _ _ _ _ Hc Ht). auto.
Qed.

(* ================================================================= *)
(** ** The Result Fetcher *)

Lemma first_image_passes_over (skipped rest : dict) :
  forallb holds_no_image skipped = true ->
  first_image (skipped ++ rest) = first_image rest.
Proof.
  induction skipped as [|[node_id o] skipped IH]; simpl; auto.
  intros H. apply andb_true_iff in H. destruct H as [Ho Hs].
  unfold holds_no_image in Ho. simpl in Ho.
  destruct o as [| | | |s|l|od]; try discriminate; simpl.
  - apply negb_true_iff in Ho. rewrite Ho. auto.
  - apply negb_true_iff in Ho. rewrite Ho. auto.
  - destruct (dict_get "images" od) as [[| | | |s|[|x l]|[|b d]]|];
      try discriminate; simpl; auto.
    apply String.eqb_eq in Ho. subst s. simpl. auto.
Qed.

Lemma first_image_none (outputs : dict) :
  forallb holds_no_image outputs = true -> first_image outputs = Return JNull.
Proof.
  intros H. rewrite <- (app_nil_r outputs).
  now rewrite first_image_passes_over.
Qed.

Lemma first_image_found (skipped rest : dict) (node_id : string)
      (od : dict) (ref : json) (more : list json) :
  forallb holds_no_image skipped = true ->
  dict_get "images" od = Some (JArr (ref :: more)) ->
  first_image (skipped ++ (node_id, JObj od) :: rest) = Return ref.
Proof.
  intros Hs Hi. rewrite first_image_passes_over by exact Hs.
  simpl. rewrite Hi. simpl.
  destruct (List.length more); reflexivity.
Qed.

(** Where the value that the scan returns comes from: nothing was found,
    or it is the head of the "images" of the first output that is not
    passed over. *)
Lemma first_image_returns (outputs : dict) (x : json) :
  first_image outputs = Return x ->
  (x = JNull /\ forallb holds_no_image outputs = true) \/
  (exists skipped node_id od rest,
     outputs = skipped ++ (node_id, JObj od) :: rest /\
     forallb holds_no_image skipped = true /\
     ((exists more, dict_get "images" od = Some (JArr (x :: more))) \/
      (exists c s, dict_get "images" od = Some (JStr (String c s)) /\
                   x = JStr (String c EmptyString)))).
Proof.
  induction outputs as [|[node_id o] outputs IH]; simpl.
  - intros E. injection E as <-. now left.
  - assert (Skip : holds_no_image (node_id, o) = true ->
                   first_image outputs = Return x ->
                   (x = JNull /\
                    holds_no_image (node_id, o) && forallb holds_no_image outputs
                    = true) \/
                   (exists skipped node_id0 od rest,
                      (node_id, o) :: outputs
                      = skipped ++ (node_id0, JObj od) :: rest /\
                      forallb holds_no_image skipped = true /\
                      ((exists more,
                          dict_get "images" od = Some (JArr (x :: more))) \/
                       (exists c s,
                          dict_get "images" od = Some (JStr (String c s)) /\
                          x = JStr (String c EmptyString))))).
    { intros Ho E. destruct (IH E) as [[-> Hall]|(sk & n & od & rest & -> & Hs & Hx)].
      - left. split; auto. now rewrite Ho, Hall.
      - right. exists ((node_id, o) :: sk), n, od, rest.
        split; [reflexivity|]. split; [simpl; now rewrite Ho, Hs|exact Hx]. }
    destruct o as [| | | |s|l|od]; simpl; try discriminate.
    + destruct (contains "images" s) eqn:C; simpl; [discriminate|].
      apply Skip. unfold holds_no_image. simpl. now rewrite C.
    + destruct (existsb (fun y => eq_str y "images") l) eqn:C; simpl;
        [discriminate|].
      apply Skip. unfold holds_no_image. simpl. now rewrite C.
    + destruct (dict_get "images" od) as [images|] eqn:Hi; simpl.
      * destruct images as [| | | |s|l|d]; simpl; try discriminate.
        -- destruct s as [|c s]; simpl.
           ++ apply Skip. unfold holds_no_image. simpl. now rewrite Hi.
           ++ intros E. injection E as <-. right.
              exists [], node_id, od, outputs. repeat split; auto.
              right. now exists c, s.
        -- destruct l as [|y l]; simpl.
           ++ apply Skip. unfold holds_no_image. simpl. now rewrite Hi.
           ++ replace (0 <? Z.of_nat (S (List.length l))) with true
                by (symmetry; apply Z.ltb_lt; lia).
              intros E. injection E as <-. right.
              exists [], node_id, od, outputs. repeat split; auto.
              left. now exists l.
        -- destruct d as [|b d]; simpl.
           ++ apply Skip. unfold holds_no_image. simpl. now rewrite Hi.
           ++ replace (0 <? Z.of_nat (S (List.length d))) with true
                by (symmetry; apply Z.ltb_lt; lia).
              discriminate.
      * apply Skip. unfold holds_no_image. simpl. now rewrite Hi.
Qed.

Section FetcherFacts.

Variable path_join : string -> string -> string.
Variable repr : json -> string.

Local Abbreviation download_image := (Fetcher.download_image path_join repr).

(** The part of [download_image] up to the image reference. *)
Lemma download_image_scan (w : world) (files : disk)
      (prompt_id output_dir : string) (h entry outputs : dict)
      (image_info : json) :
  history w prompt_id = Replies (Json (JObj h)) ->
  dict_get prompt_id h = Some (JObj entry) ->
  dict_get_default "outputs" (JObj []) entry = JObj outputs ->
  first_image outputs = Return image_info ->
  download_image w files prompt_id output_dir =
  if negb (truthy image_info) then
    (files, Raise (Http (HTTPException 404 [FStr "No output images found"])))
  else
    match (filename <- get image_info "filename" JNull ;;
           subfolder <- get image_info "subfolder" (JStr "") ;;
           folder_type <- get image_info "type" (JStr "output") ;;
           Return (filename, subfolder, folder_type)) with
    | Raise e => (files, Raise e)
    | Return (filename, subfolder, folder_type) =>
        if negb (truthy filename) then
          (files,
           Raise (Http (HTTPException 500 [FStr "No filename in output"])))
        else
          match view w [("filename", filename); ("subfolder", subfolder);
                        ("type", folder_type)] with
          | HttpFails c =>
              (files,
               Raise (Http (HTTPException 500
                        [FStr "Failed to download image: ";
                         FExn (HTTPXError c)])))
          | Replies content =>
              let output_path :=
                path_join output_dir
                          (artifact_name repr prompt_id filename) in
              if negb (can_open w output_path) then
                (files, Raise (Other OSError))
              else
                match save w output_path content with
                | WriteFails kept e =>
                    ((output_path, firstn kept content) :: files,
                     Raise (download_failed e))
                | PrintFails e =>
                    ((output_path, content) :: files,
                     Raise (download_failed e))
                | Saved =>
                    ((output_path, content) :: files, Return output_path)
                end
          end
    end.
Proof.
  intros Hh He Ho Hf.
  unfold Fetcher.download_image, get_history. rewrite Hh.
  cbn [has getitem]. rewrite He.
  cbn [bind get]. rewrite Ho. cbn [items bind]. rewrite Hf.
  reflexivity.
Qed.

End FetcherFacts.

Lemma prefix_append (s t : string) : String.prefix s (s ++ t)%string = true.
Proof.
  induction s as [|c s IH]; simpl.
  - now destruct t.
  - destruct (ascii_dec c c); [exact IH|contradiction].
Qed.

Lemma contains_prefix (s t : string) :
  String.prefix s t = true -> contains s t = true.
Proof. intros H. destruct t; simpl in *; now rewrite H. Qed.

Lemma contains_head (s t : string) : contains s (s ++ t)%string = true.
Proof. apply contains_prefix, prefix_append. Qed.

Lemma contains_self (s : string) : contains s s = true.
Proof.
  assert (E : (s ++ "")%string = s) by (induction s; simpl; congruence).
  rewrite <- E at 2. apply contains_head.
Qed.

Lemma contains_after (s a t : string) :
  contains s t = true -> contains s (a ++ t)%string = true.
Proof.
  intros H. induction a as [|c a IH]; simpl; auto.
  rewrite IH. apply orb_true_r.
Qed.

(** *** Paths of plain names *)

Lemma no_slash_app (s t : string) :
  no_slash (s ++ t)%string = no_slash s && no_slash t.
Proof.
  induction s as [|c s IH]; simpl; auto.
  rewrite IH. now rewrite andb_assoc.
Qed.

Lemma split_slash_plain (s : string) :
  no_slash s = true -> split_slash s = [s].
Proof.
  induction s as [|c s IH]; simpl; auto.
  intros H. apply andb_true_iff in H. destruct H as [Hc Hs].
  apply negb_true_iff in Hc. rewrite Hc, (IH Hs). reflexivity.
Qed.

Lemma lstrip_slash_plain (s : string) :
  no_slash s = true -> lstrip_slash s = s.
Proof.
  destruct s as [|c s]; simpl; auto.
  intros H. apply andb_true_iff in H. destruct H as [Hc _].
  apply negb_true_iff in Hc. now rewrite Hc.
Qed.

Lemma parse_parts_plain (n : string) :
  no_slash n = true -> n <> ""%string -> n <> "."%string ->
  parse_parts n = (""%string, [n]).
Proof.
  intros Hn He Hd. unfold parse_parts, root_of.
  rewrite (lstrip_slash_plain _ Hn), Nat.sub_diag, (split_slash_plain _ Hn).
  simpl. unfold kept_part.
  apply String.eqb_neq in He, Hd. now rewrite He, Hd.
Qed.

Lemma append_assoc (s t u : string) :
  ((s ++ t) ++ u)%string = (s ++ t ++ u)%string.
Proof. induction s as [|c s IH]; simpl; congruence. Qed.

Lemma concat_ends_with_last (sep : string) (parts : list string) (n : string) :
  exists pre, String.concat sep (parts ++ [n]) = (pre ++ n)%string.
Proof.
  induction parts as [|x parts [pre IH]].
  - now exists ""%string.
  - exists (x ++ sep ++ pre)%string.
    change ((x :: parts) ++ [n]) with (x :: (parts ++ [n])).
    assert (E : String.concat sep (x :: (parts ++ [n]))
                = (x ++ sep ++ String.concat sep (parts ++ [n]))%string)
      by (destruct parts; reflexivity).
    rewrite E, IH. now rewrite !append_assoc.
Qed.

Lemma append_not_empty (s t : string) :
  t <> ""%string -> ((s ++ t)%string =? "")%string = false.
Proof.
  intros H. apply String.eqb_neq. intros E.
  destruct s; simpl in E; [contradiction|discriminate].
Qed.

(** A name without slashes that is neither empty nor "." is the last
    component of the path that [pathlib] makes of a directory and it, and
    the path ends with it. *)
Lemma posix_join_plain_name (d n : string) :
  no_slash n = true -> n <> ""%string -> n <> "."%string ->
  exists pre, posix_join d n = (pre ++ n)%string.
Proof.
  intros Hn He Hd. unfold posix_join.
  rewrite (parse_parts_plain _ Hn He Hd).
  destruct (parse_parts d) as [root parts]. cbn [String.eqb].
  destruct (concat_ends_with_last "/" parts n) as [pre E].
  exists (root ++ pre)%string. unfold render. rewrite E.
  rewrite <- append_assoc, (append_not_empty _ _ He).
  reflexivity.
Qed.

Lemma artifact_name_plain (prompt_id filename : string) :
  no_slash prompt_id = true -> no_slash filename = true ->
  let name := (prompt_id ++ "_" ++ filename)%string in
  no_slash name = true /\ name <> ""%string /\ name <> "."%string.
Proof.
  intros Hp Hf name. unfold name. split; [|split].
  - rewrite !no_slash_app, Hp, Hf. reflexivity.
  - destruct prompt_id; discriminate.
  - destruct prompt_id as [|c [|c' p]]; discriminate.
Qed.

(** *** The cases of the fetch *)

(** C6, as the code has it.  With a history that is a mapping, and the
    job's entry and its outputs mappings too:
    - no entry for the job: 404 "Prompt ID not found in history";
    - an entry every output of which is passed over by the scan (it has no
      "images", or empty ones): 404 "No output images found";
    - the first output that is not passed over has a list of images whose
      first reference is a non-empty mapping without a filename (none, or a
      false value such as null or the empty str): 500 "No filename in
      output";
    - that reference has a non-empty str as filename, the download succeeds
      and the file is opened, written and reported: the content is written
      to, and the call returns, the path that [pathlib] makes of the output
      directory and the name "{job}_{filename}"; when neither the job
      identifier nor the filename has a slash in it, the returned path
      contains both. *)
Theorem fetch_by_cases
        (repr : json -> string)
        (w : world) (files : disk) (prompt_id output_dir : string) (h : dict) :
  history w prompt_id = Replies (Json (JObj h)) ->
  let result := download_image posix_join repr w files prompt_id output_dir in
  (dict_get prompt_id h = None ->
   result =
   (files, Raise (Http (HTTPException 404
                          [FStr "Prompt ID not found in history"])))) /\
  (forall entry outputs,
     dict_get prompt_id h = Some (JObj entry) ->
     dict_get_default "outputs" (JObj []) entry = JObj outputs ->
     (forallb holds_no_image outputs = true ->
      result =
      (files, Raise (Http (HTTPException 404
                             [FStr "No output images found"])))) /\
     (forall skipped node_id od ref more rest,
        outputs = skipped ++ (node_id, JObj od) :: rest ->
        forallb holds_no_image skipped = true ->
        dict_get "images" od = Some (JArr (JObj ref :: more)) ->
        ref <> [] ->
        (truthy (dict_get_default "filename" JNull ref) = false ->
         result =
         (files, Raise (Http (HTTPException 500
                                [FStr "No filename in output"])))) /\
        (forall filename content,
           dict_get "filename" ref = Some (JStr filename) ->
           filename <> ""%string ->
           view w [("filename", JStr filename);
                   ("subfolder", dict_get_default "subfolder" (JStr "") ref);
                   ("type", dict_get_default "type" (JStr "output") ref)]
             = Replies content ->
           can_open w (posix_join output_dir
                                  (prompt_id ++ "_" ++ filename)%string)
             = true ->
           save w (posix_join output_dir
                              (prompt_id ++ "_" ++ filename)%string) content
             = Saved ->
           exists path,
             result = ((path, content) :: files, Return path) /\
             path = posix_join output_dir
                               (prompt_id ++ "_" ++ filename)%string /\
             (no_slash prompt_id = true -> no_slash filename = true ->
              contains prompt_id path = true /\
              contains filename path = true)))).
Proof.
  intros Hh result. split.
  - intros Hn. unfold result, download_image, get_history.
    rewrite Hh. cbn [has]. now rewrite Hn.
  - intros entry outputs He Ho. split.
    + intros Hall. unfold result.
      rewrite (download_image_scan _ _ _ _ _ _ _ _ _ JNull Hh He Ho);
        [reflexivity|now apply first_image_none].
    + intros skipped node_id od ref more rest -> Hs Hi Hne.
      pose proof (first_image_found skipped rest node_id od _ more Hs Hi) as Hf.
      assert (Ht : truthy (JObj ref) = true) by (destruct ref; simpl; congruence).
      split.
      * intros Hfn. unfold result.
        rewrite (download_image_scan _ _ _ _ _ _ _ _ _ _ Hh He Ho Hf).
        rewrite Ht. cbn [negb get bind]. now rewrite Hfn.
      * intros filename content Hfile Hnon Hv Hopen Hsave.
        exists (posix_join output_dir (prompt_id ++ "_" ++ filename)%string).
        split; [|split; [reflexivity|]].
        -- unfold result.
           rewrite (download_image_scan _ _ _ _ _ _ _ _ _ _ Hh He Ho Hf).
           rewrite Ht. cbn [negb get bind].
           assert (Hfd : dict_get_default "filename" JNull ref = JStr filename)
             by (unfold dict_get_default; now rewrite Hfile).
           rewrite !Hfd.
           assert (Hty : truthy (JStr filename) = true).
           { simpl. apply negb_true_iff. now apply String.eqb_neq. }
           rewrite Hty. cbn [negb]. rewrite Hv.
           change (artifact_name repr prompt_id (JStr filename))
             with (prompt_id ++ "_" ++ filename)%string.
           cbv zeta. rewrite Hopen. cbn [negb]. now rewrite Hsave.
        -- intros Hp Hfs.
           destruct (artifact_name_plain _ _ Hp Hfs) as (Hn & Hne' & Hnd).
           destruct (posix_join_plain_name output_dir _ Hn Hne' Hnd)
             as [pre ->].
           split.
           ++ apply contains_after, contains_head.
           ++ do 2 apply contains_after.
              apply (contains_after filename "_"), contains_self.
Qed.

(** *** Transport failures *)

(** C7, as the code has it.  An [httpx.HTTPError] (upstream unreachable,
    timeout, or a status that is not 2xx)
    - during submission gives status 503;
    - during the history query gives status 500, "Failed to get history: ",
      from [get_history] and so from [download_image];
    - during the download gives status 500, "Failed to download image: ":
      a fetch that would have returned a path, had the download succeeded,
      raises that error when the download fails instead. *)
Theorem transport_failure_status
        (path_join : string -> string -> string) (repr : json -> string)
        (base_url : string) (post : json -> reply decoded) (workflow : dict)
        (w : world) (files : disk) (prompt_id output_dir : string)
        (c : option Z) :
  (post (JObj [("prompt", JObj workflow)]) = HttpFails c ->
   queue_prompt base_url post workflow =
   Raise (Http (HTTPException 503
            [FStr "Failed to connect to ComfyUI at "; FStr base_url;
             FStr ": "; FExn (HTTPXError c)]))) /\
  (history w prompt_id = HttpFails c ->
   get_history w prompt_id =
   Raise (Http (HTTPException 500
            [FStr "Failed to get history: "; FExn (HTTPXError c)])) /\
   download_image path_join repr w files prompt_id output_dir =
   (files, Raise (Http (HTTPException 500
                    [FStr "Failed to get history: "; FExn (HTTPXError c)])))) /\
  (forall w' files' path,
     history w' = history w ->
     (forall params, view w' params = HttpFails c) ->
     download_image path_join repr w files prompt_id output_dir
       = (files', Return path) ->
     download_image path_join repr w' files prompt_id output_dir =
     (files, Raise (Http (HTTPException 500
                      [FStr "Failed to download image: ";
                       FExn (HTTPXError c)])))).
Proof.
  split; [|split].
  - intros H. unfold queue_prompt. now rewrite H.
  - intros H. unfold download_image, get_history. now rewrite H.
  - intros w' files' path Hh Hv Hret.
    unfold download_image, get_history in *. rewrite Hh.
    repeat match type of Hret with
           | context [match ?x with _ => _ end] =>
               destruct x eqn:?; try discriminate
           | context [if ?x then _ else _] =>
               destruct x eqn:?; try discriminate
           end.
    now rewrite Hv.
Qed.

(* ================================================================= *)
(** ** The statements at concrete inputs *)

(** *** Mutator *)

Example two_slot_template_mutated :
  let out := modify_workflow some_uuids two_slot_template "A" "B" in
  raised out = None /\
  input_of (graph out) "6" "text" = Some (JStr "B") /\
  input_of (graph out) "7" "text" = Some (JStr "A") /\
  input_of (graph out) "3" "seed" = Some (JInt 12345) /\
  printed out =
    [SetNegative "6"; SetPositive "7"; RandomizedSeed "3" (JInt 12345)].
Proof. vm_compute. repeat split. Qed.

(** The text slots of [two_slot_template], by the theorem on text slots:
    the slot whose placeholder contains "bad" gets "B", the other "A". *)
Lemma text_slot_gets_its_prompt_witness :
  let out := modify_workflow some_uuids two_slot_template "A" "B" in
  raised out = None /\
  (exists current_text nd' ins',
     JStr "blurry, BAD anatomy" = JStr current_text /\
     nth_error (graph out) 0 = Some ("6", JObj nd') /\
     dict_get "inputs" nd' = Some (JObj ins') /\
     dict_get "text" ins' =
       Some (JStr (if contains "negative" (lower current_text)
                      || contains "bad" (lower current_text)
                   then "B" else "A"))) /\
  (exists current_text nd' ins',
     JStr "a photo of a cat" = JStr current_text /\
     nth_error (graph out) 1 = Some ("7", JObj nd') /\
     dict_get "inputs" nd' = Some (JObj ins') /\
     dict_get "text" ins' =
       Some (JStr (if contains "negative" (lower current_text)
                      || contains "bad" (lower current_text)
                   then "B" else "A"))).
Proof.
  split; [reflexivity|]. split.
  - apply (text_slot_gets_its_prompt some_uuids two_slot_template "A" "B"
             0 "6" _ _ eq_refl eq_refl eq_refl eq_refl).
  - apply (text_slot_gets_its_prompt some_uuids two_slot_template "A" "B"
             1 "7" _ _ eq_refl eq_refl eq_refl eq_refl).
Defined.

(** C3 as stated fails.  On a CLIPTextEncode node whose text input is a
    link to another node the mutator raises and the text is not
    overwritten; on one without "inputs" it returns and the node has no
    text at all. *)
Lemma text_slot_rule_fails_on_link_and_on_bare_node :
  (let out := modify_workflow some_uuids linked_text_template "A" "B" in
   class_is [("class_type", JStr "CLIPTextEncode");
             ("inputs", JObj [("text", JArr [JStr "5"; JInt 0]);
                              ("clip", JArr [JStr "4"; JInt 1])])]
            "CLIPTextEncode" = true /\
   raised out = Some (Other AttributeError) /\
   input_of (graph out) "6" "text" = Some (JArr [JStr "5"; JInt 0]) /\
   input_of (graph out) "6" "text" <> Some (JStr "A") /\
   input_of (graph out) "6" "text" <> Some (JStr "B")) /\
  (let out := modify_workflow some_uuids bare_template "A" "B" in
   raised out = None /\
   graph out = bare_template /\
   input_of (graph out) "6" "text" = None).
Proof.
  split.
  - vm_compute. repeat split; discriminate.
  - vm_compute. repeat split.
Qed.

Lemma written_seed_is_u32_witness :
  let out := modify_workflow some_uuids two_slot_template "A" "B" in
  In (RandomizedSeed "3" (JInt 12345)) (printed out) /\
  is_u32 (JInt 12345) /\
  raised out = None /\
  exists nd' ins' k,
    nth_error (graph out) 2 = Some ("3", JObj nd') /\
    dict_get "inputs" nd' = Some (JObj ins') /\
    dict_get "seed" ins' = Some (JInt (some_uuids k mod 2 ^ 32)) /\
    0 <= some_uuids k mod 2 ^ 32 < 2 ^ 32.
Proof.
  pose (T := written_seed_is_u32 some_uuids two_slot_template "A" "B").
  assert (Hin : In (RandomizedSeed "3" (JInt 12345))
                   (printed (modify_workflow some_uuids two_slot_template
                               "A" "B")))
    by (right; right; left; reflexivity).
  split; [exact Hin|].
  split; [exact (proj2 (proj1 T "3" (JInt 12345) Hin))|].
  split; [reflexivity|].
  exact (proj2 T eq_refl 2%nat "3" _ _ eq_refl eq_refl eq_refl).
Defined.

Lemma node_without_inputs_is_left_alone_witness :
  let out := modify_workflow some_uuids bare_template "A" "B" in
  raised out = None /\
  nth_error bare_template 0 =
    Some ("6", JObj [("class_type", JStr "CLIPTextEncode")]) /\
  dict_get "inputs" [("class_type", JStr "CLIPTextEncode")] = None /\
  (nth_error (graph out) 0 =
     Some ("6", JObj [("class_type", JStr "CLIPTextEncode")]) /\
   ~ In WarningNoNodes (printed out) /\
   (class_is [("class_type", JStr "CLIPTextEncode")] "CLIPTextEncode" = true ->
    In (SetPositive "6") (printed out)) /\
   (class_is [("class_type", JStr "CLIPTextEncode")] "KSampler" = true ->
    exists seed, In (RandomizedSeed "6" seed) (printed out))) /\
  nth_error bare_template 1 = Some ("3", JObj [("class_type", JStr "KSampler")]) /\
  dict_get "inputs" [("class_type", JStr "KSampler")] = None /\
  nth_error (graph out) 1 = Some ("3", JObj [("class_type", JStr "KSampler")]) /\
  exists seed, In (RandomizedSeed "3" seed) (printed out).
Proof.
  split; [reflexivity|]. split; [reflexivity|]. split; [reflexivity|].
  split.
  - apply (node_without_inputs_is_left_alone some_uuids bare_template "A" "B"
             0 "6" _ eq_refl eq_refl (or_introl eq_refl) eq_refl).
  - split; [reflexivity|]. split; [reflexivity|].
    pose (S := node_without_inputs_is_left_alone some_uuids bare_template
                 "A" "B" 1 "3" _ eq_refl eq_refl (or_intror eq_refl) eq_refl).
    split; [exact (proj1 S)|exact (proj2 (proj2 (proj2 S)) eq_refl)].
Defined.

Lemma text_that_is_not_str_raises_witness :
  let out := modify_workflow some_uuids linked_text_template "A" "B" in
  (forall s, JArr [JStr "5"; JInt 0] <> JStr s) /\
  (raised out = Some (Other AttributeError) \/
   raised out = Some (Other TypeError)).
Proof.
  assert (H : forall s, JArr [JStr "5"; JInt 0] <> JStr s)
    by (intros s E; discriminate E).
  split; [exact H|].
  exact (text_that_is_not_str_raises some_uuids linked_text_template "A" "B"
           0 "6" _ _ _ eq_refl eq_refl eq_refl eq_refl H).
Defined.

(** On the linked template the error is the [AttributeError] of [.lower]. *)
Example linked_text_raises_attribute_error :
  raised (modify_workflow some_uuids linked_text_template "A" "B")
  = Some (Other AttributeError).
Proof. reflexivity. Qed.

(** *** Watcher *)


Example events_are_told_apart :
  let watch_one ev :=
    wait_for_completion "J" default_timeout
      (Connected 0 [Turn 12 1 (Received (Json (JObj ev)))]) in
  watch_one (executing "J" JNull) = Some (Return true) /\
  watch_one (executing "J" (JStr "3")) = None /\
  watch_one (executing "K" JNull) = None /\
  watch_one (execution_error "K") = None /\
  watch_one status_event = None /\
  status_of (match watch_one (execution_error "J") with
             | Some r => r
             | None => Return false
             end) = Some 500.
Proof. vm_compute. repeat split. Qed.

Lemma undecodable_frame_aborts_watch_witness :
  deadline_passed 0 12 default_timeout = false /\
  wait_for_completion "J" default_timeout
    (Connected 0 [Turn 12 1 (Received (NotJson "preview bytes"));
                  Turn 13 1 (Received (Json (JObj (executing "J" JNull))))])
  = Some (Raise (Http (HTTPException 500
                   [FStr "WebSocket error: "; FExn JSONDecodeError]))).
Proof.
  assert (Hd : deadline_passed 0 12 default_timeout = false)
    by reflexivity.
  split; [exact Hd|].
  exact (undecodable_frame_aborts_watch "J" default_timeout 0 12 1
           "preview bytes" _ Hd).
Defined.

Lemma deadline_ends_watch_witness :
  Forall (fun t => ignorable "J" (incoming t) = true) quiet_turns /\
  deadline_passed 0 (clock (Turn 300.5 5 RecvTimeout)) default_timeout
  = true /\
  Forall (fun t => deadline_passed 0 (clock t) default_timeout = false)
         quiet_turns /\
  wait_for_completion "J" default_timeout
    (Connected 0 (quiet_turns ++ [Turn 300.5 5 RecvTimeout]))
  = Some (Raise timed_out) /\
  wait_for_completion "J" default_timeout (Connected 0 quiet_turns) = None.
Proof.
  assert (Hi : Forall (fun t => ignorable "J" (incoming t) = true) quiet_turns)
    by (repeat constructor).
  assert (Hl : deadline_passed 0 (clock (Turn 300.5 5 RecvTimeout))
                               default_timeout = true)
    by reflexivity.
  assert (Hw : Forall (fun t => deadline_passed 0 (clock t) default_timeout
                                = false) quiet_turns)
    by (repeat constructor).
  split; [exact Hi|]. split; [exact Hl|]. split; [exact Hw|]. split.
  - exact (proj1 (deadline_ends_watch "J" default_timeout 0 quiet_turns Hi)
             (Turn 300.5 5 RecvTimeout) [] Hl).
  - exact (proj2 (deadline_ends_watch "J" default_timeout 0 quiet_turns Hi) Hw).
Defined.

(** C2 as stated fails.  In neither run does a terminating event arrive by
    the deadline (300 after the start at 0), and neither ends in the 504
    timeout: in the first a frame that is not JSON ends the watch with a
    500; in the second the receive begun at 299 brings the terminating
    event at 303 and the watch ends with success. *)
Lemma deadline_rule_fails_on_bad_frame_and_late_event :
  (let turns := [Turn 10 1 (Received (NotJson "preview bytes"));
                 Turn 301 5 RecvTimeout] in
   forallb (fun t => negb (terminating "J" (incoming t))) turns = true /\
   wait_for_completion "J" default_timeout (Connected 0 turns)
   = Some (Raise (Http (HTTPException 500
                    [FStr "WebSocket error: "; FExn JSONDecodeError]))) /\
   wait_for_completion "J" default_timeout (Connected 0 turns)
   <> Some (Raise timed_out)) /\
  (let turns := [Turn 299 4 (Received (Json (JObj (executing "J" JNull))));
                 Turn 304 5 RecvTimeout] in
   arrival (Turn 299 4 (Received (Json (JObj (executing "J" JNull)))))
   = 303%float /\
   forallb (fun t => negb (terminating "J" (incoming t)
                           && negb (deadline_passed 0 (arrival t)
                                                    default_timeout)))
           turns = true /\
   wait_for_completion "J" default_timeout (Connected 0 turns)
   = Some (Return true) /\
   wait_for_completion "J" default_timeout (Connected 0 turns)
   <> Some (Raise timed_out)).
Proof.
  split; vm_compute; repeat split; discriminate.
Qed.

(** The elapsed time is the rounded difference of two binary64 readings.
    A watch begun when the clock read 0.1 (the float nearest to it) is not
    past a deadline of 300 when the clock reads 300.1, although the exact
    difference of the two readings is a little more than 300: the
    difference the machine computes is 300.  One tick of the clock later it
    is past the deadline. *)
Example elapsed_time_is_rounded :
  let start_time := 0x1.999999999999ap-4%float in
  let now := 0x1.2c1999999999ap+8%float in
  (now - start_time = 300)%float /\
  deadline_passed start_time now 300 = false /\
  deadline_passed start_time (next_up now) 300 = true /\
  deadline_passed 0 300 300 = false /\
  deadline_passed 0 (next_up 300) 300 = true.
Proof. repeat split. Qed.

(** *** Fetcher *)

(** The history of "J" lists "fox.png": the image is stored as
    "output/J_fox.png", a path that holds both "J" and "fox.png". *)
Lemma fetch_by_cases_witness :
  let hist := history_with (JArr [fox_reference]) in
  let w := serving hist in
  history w "J" = Replies (Json (JObj hist)) /\
  view w [("filename", JStr "fox.png"); ("subfolder", JStr "");
          ("type", JStr "output")] = Replies png /\
  can_open w (posix_join "output" "J_fox.png") = true /\
  save w (posix_join "output" "J_fox.png") png = Saved /\
  no_slash "J" = true /\ no_slash "fox.png" = true /\
  download_image posix_join no_repr w [] "J" "output"
  = ([("output/J_fox.png", png)], Return "output/J_fox.png") /\
  contains "J" "output/J_fox.png" = true /\
  contains "fox.png" "output/J_fox.png" = true /\
  (dict_get "K" hist = None /\
   download_image posix_join no_repr w [] "K" "output"
   = ([], Raise (Http (HTTPException 404
                   [FStr "Prompt ID not found in history"])))).
Proof.
  intros hist w.
  pose (T := proj2 (proj2 (fetch_by_cases no_repr w [] "J" "output"
                             _ eq_refl)
                      _ _ eq_refl eq_refl)
                   [] "9" _ _ [] [] eq_refl eq_refl eq_refl
                   ltac:(discriminate)).
  pose (R := proj2 T "fox.png" png eq_refl ltac:(discriminate) eq_refl
                   eq_refl eq_refl).
  split; [reflexivity|]. split; [reflexivity|]. split; [reflexivity|].
  split; [reflexivity|]. split; [reflexivity|]. split; [reflexivity|].
  destruct R as (path & Hres & Hpath & Hin).
  destruct (Hin eq_refl eq_refl) as [Hj Hf]. rewrite Hpath in *.
  split; [exact Hres|]. split; [exact Hj|]. split; [exact Hf|].
  split; [reflexivity|].
  exact (proj1 (fetch_by_cases no_repr w [] "K" "output" _ eq_refl) eq_refl).
Defined.

(** What [pathlib] makes of some directories and names, the default
    directory "./output" among them; on the directory and the names of
    the runs below [plain_join] gives the path that [pathlib] gives. *)
Example paths_of_pathlib :
  posix_join "./output" "J_fox.png" = "output/J_fox.png" /\
  posix_join "output/" "J_fox.png" = "output/J_fox.png" /\
  posix_join "/srv/out" "J_fox.png" = "/srv/out/J_fox.png" /\
  posix_join "//srv" "J_fox.png" = "//srv/J_fox.png" /\
  posix_join "" "J_fox.png" = "J_fox.png" /\
  posix_join "output" "J_a//b.png" = "output/J_a/b.png" /\
  posix_join "output" "/tmp/J_fox.png" = "/tmp/J_fox.png" /\
  posix_join "output" "J_fox.png" = plain_join "output" "J_fox.png" /\
  posix_join "output" "K_cat.png" = plain_join "output" "K_cat.png".
Proof. repeat split. Qed.

(** Two other cases of the fetch, computed: an entry whose only output lists
    no image, and a reference that has a subfolder but no filename. *)
Example fetch_on_missing_parts :
  download_image plain_join no_repr (serving (history_with (JArr []))) []
                 "J" "output"
  = ([], Raise (Http (HTTPException 404 [FStr "No output images found"]))) /\
  download_image plain_join no_repr
                 (serving (history_with (JArr [JObj [("subfolder", JStr "")]])))
                 [] "J" "output"
  = ([], Raise (Http (HTTPException 500 [FStr "No filename in output"]))).
Proof. split; reflexivity. Qed.

Example fetch_errors :
  let fetch hist job :=
    status_of (snd (download_image plain_join no_repr (serving hist) []
                      job "output")) in
  fetch (history_with (JArr [fox_reference])) "K" = Some 404 /\
  fetch (history_with (JArr [])) "J" = Some 404 /\
  fetch [("J", JObj [("outputs", JObj [])])] "J" = Some 404 /\
  fetch (history_with (JArr [JObj [("subfolder", JStr "")]])) "J" = Some 500.
Proof. vm_compute. repeat split. Qed.

(** C6 as stated fails in these runs.
    - The first image reference of the first output is the empty mapping:
      it has no filename, and the fetch fails with 404 "No output images
      found", not with 500.
    - The only output has null for "images": no output has a non-empty
      list of image references, and the fetch does not fail with the 404
      but with the [TypeError] of [len(None)].
    - The filename ends with a slash: [pathlib] drops it, and the path
      that is written and returned does not contain the filename.
    - The history is null, or the entry of the job is: the job, or any
      output with images, is absent, and the fetch does not fail with a
      404 but with the [TypeError] of [in], or the [AttributeError] of
      [.get]. *)
Lemma fetch_cases_fail_on_odd_histories :
  (let w := serving (history_with (JArr [JObj []])) in
   dict_get "filename" [] = None /\
   download_image posix_join no_repr w [] "J" "output"
   = ([], Raise (Http (HTTPException 404 [FStr "No output images found"]))) /\
   status_of (snd (download_image posix_join no_repr w [] "J" "output"))
   <> Some 500) /\
  (let w := serving (history_with JNull) in
   download_image posix_join no_repr w [] "J" "output"
   = ([], Raise (Other TypeError)) /\
   status_of (snd (download_image posix_join no_repr w [] "J" "output"))
   <> Some 404) /\
  (let w := serving (history_with
                       (JArr [JObj [("filename", JStr "fox.png/")]])) in
   download_image posix_join no_repr w [] "J" "output"
   = ([("output/J_fox.png", png)], Return "output/J_fox.png") /\
   contains "fox.png/" "output/J_fox.png" = false) /\
  (let w := World (fun _ => Replies (Json JNull)) (fun _ => Replies png)
                  (fun _ => true) (fun _ _ => Saved) in
   download_image posix_join no_repr w [] "J" "output"
   = ([], Raise (Other TypeError))) /\
  (let w := serving [("J", JNull)] in
   download_image posix_join no_repr w [] "J" "output"
   = ([], Raise (Other AttributeError))).
Proof. vm_compute. repeat split; discriminate. Qed.

Lemma transport_failure_status_witness :
  let w := serving (history_with (JArr [fox_reference])) in
  let w' := failing_download (history_with (JArr [fox_reference])) (Some 502) in
  let post (payload : json) : reply decoded := HttpFails None in
  (post (JObj [("prompt", JObj two_slot_template)]) = HttpFails None /\
   status_of (queue_prompt "http://comfy:8188" post two_slot_template)
   = Some 503) /\
  (history unreachable "J" = HttpFails None /\
   status_of (get_history unreachable "J") = Some 500) /\
  history w' = history w /\
  (forall params, view w' params = HttpFails (Some 502)) /\
  download_image plain_join no_repr w [] "J" "output"
  = ([("output/J_fox.png", png)], Return "output/J_fox.png") /\
  download_image plain_join no_repr w' [] "J" "output"
  = ([], Raise (Http (HTTPException 500
                  [FStr "Failed to download image: ";
                   FExn (HTTPXError (Some 502))]))).
Proof.
  intros w w' post.
  assert (Hv : forall params, view w' params = HttpFails (Some 502))
    by (intros params; reflexivity).
  split.
  { split; [reflexivity|].
    rewrite (proj1 (transport_failure_status plain_join no_repr
                      "http://comfy:8188" post two_slot_template
                      w [] "J" "output" None) eq_refl).
    reflexivity. }
  split.
  { split; [reflexivity|].
    rewrite (proj1 (proj1 (proj2 (transport_failure_status plain_join no_repr
                      "http://comfy:8188" post two_slot_template
                      unreachable [] "J" "output" None)) eq_refl)).
    reflexivity. }
  split; [reflexivity|]. split; [exact Hv|]. split; [reflexivity|].
  exact (proj2 (proj2 (transport_failure_status plain_join no_repr
                         "http://comfy:8188" post
                         [] w [] "J" "output" (Some 502)))
           w' _ _ eq_refl Hv eq_refl).
Defined.

(** C7 as stated fails.  With the upstream out of reach the submission
    fails with 503, but the history query, and with it the fetch, fails with
    500; and a download that is answered with status 502 fails with 500. *)
Lemma fetch_failures_are_not_service_unavailable :
  status_of (queue_prompt "http://comfy:8188" (fun _ => HttpFails None)
                          two_slot_template) = Some 503 /\
  status_of (get_history unreachable "J") = Some 500 /\
  status_of (snd (download_image plain_join no_repr unreachable [] "J"
                    "output")) = Some 500 /\
  status_of (snd (download_image plain_join no_repr
                    (failing_download (history_with (JArr [fox_reference]))
                                      (Some 502))
                    [] "J" "output")) = Some 500 /\
  status_of (get_history unreachable "J") <> Some 503.
Proof. vm_compute. repeat split. discriminate. Qed.

Example submission_outcomes :
  queue_prompt "http://comfy:8188"
    (fun _ => Replies (Json (JObj [("prompt_id", JStr "J"); ("number", JInt 1)])))
    two_slot_template = Return (JStr "J") /\
  status_of (queue_prompt "http://comfy:8188"
               (fun _ => Replies (Json (JObj [("error", JStr "bad graph")])))
               two_slot_template) = Some 500.
Proof. vm_compute. split; reflexivity. Qed.

(* ================================================================= *)
(** ** More on the Workflow Mutator *)

Section MutatorRuns.

Variable uuid4_int : nat -> Z.
Variables positive_prompt negative_prompt : string.

Local Abbreviation visit :=
  (Mutator.visit uuid4_int positive_prompt negative_prompt).
Local Abbreviation visit_items :=
  (Mutator.visit_items uuid4_int positive_prompt negative_prompt).
Local Abbreviation mutate :=
  (fun workflow =>
     modify_workflow uuid4_int workflow positive_prompt negative_prompt).

Lemma classes_exclude nd :
  class_is nd "KSampler" = true -> class_is nd "CLIPTextEncode" = false.
Proof.
  intros Hk. destruct (class_is nd "CLIPTextEncode") eqn:Hc; auto.
  pose proof (class_is_inj _ _ _ Hc Hk). discriminate.
Qed.

(** The loop body returns exactly on the nodes that are [visitable]. *)
Lemma visit_returns_iff node_id v st :
  (exists v', snd (visit node_id v st) = Return v') <->
  visitable (node_id, v) = true.
Proof.
  assert (Yes : forall (r : json) (b : bool),
             b = true -> (exists v', Return r = Return v') <-> b = true).
  { intros r b ->. split; [reflexivity|intros _; now exists r]. }
  assert (No : forall (e : exn) (b : bool),
             b = false ->
             (exists v', @Raise json e = Return v') <-> b = true).
  { intros e b ->. split; [intros [v' H]; discriminate|discriminate]. }
  unfold Mutator.visit, visitable, inputs_of. simpl.
  destruct v as [| | | | |l|nd]; try (apply Yes; reflexivity).
  destruct (class_is nd "CLIPTextEncode").
  - destruct (dict_get "inputs" nd) as [[| | | | |l|ins]|]; simpl;
      try (apply No; reflexivity).
    + unfold dict_get_default.
      destruct (dict_get "text" ins) as [[| | | |s|l|d]|]; simpl;
        try (apply No; reflexivity).
      * destruct (negative_slot s); simpl; apply Yes; reflexivity.
      * apply Yes; reflexivity.
    + apply Yes; reflexivity.
  - destruct (class_is nd "KSampler").
    + destruct (dict_get "inputs" nd) as [[| | | | |l|ins]|]; simpl;
        try (apply No; reflexivity); apply Yes; reflexivity.
    + simpl. apply Yes; reflexivity.
Qed.

Lemma visit_items_returns_iff items :
  forall st,
    snd (visit_items items st) = None <-> forallb visitable items = true.
Proof.
  induction items as [|[node_id v] rest IH]; intros st.
  - simpl. tauto.
  - cbn [Mutator.visit_items forallb].
    pose proof (visit_returns_iff node_id v st) as Hv.
    destruct (visit node_id v st) as [st1 [v1|e]] eqn:Ev; simpl in Hv.
    + specialize (IH st1).
      destruct (visit_items rest st1) as [[rest' st2] r2]. simpl in *.
      rewrite (proj1 Hv (ex_intro _ v1 eq_refl)). simpl. exact IH.
    + simpl. destruct (visitable (node_id, v)).
      * destruct (proj2 Hv eq_refl) as [v' H]. discriminate.
      * simpl. split; discriminate.
Qed.


(** The loop body on a node of neither class, and on one of either. *)
Lemma visit_unclassed node_id v st :
  classed (node_id, v) = false -> visit node_id v st = (st, Return v).
Proof.
  unfold classed, Mutator.visit. simpl.
  destruct v as [| | | | |l|nd]; auto.
  intros H. apply orb_false_iff in H. destruct H as [-> ->]. reflexivity.
Qed.

Lemma visit_classed node_id v st st' v' :
  classed (node_id, v) = true ->
  visit node_id v st = (st', Return v') -> modified st' = true.
Proof.
  intros Hc E.
  pose proof (visit_visited uuid4_int positive_prompt negative_prompt
                node_id v st) as Hv.
  rewrite E in Hv. simpl in Hv.
  unfold classed in Hc. simpl in Hc.
  destruct v as [| | | | |l|nd]; try discriminate.
  apply orb_true_iff in Hc. destruct Hc as [Hc|Hc].
  - destruct (visited_text_node _ _ _ _ _ _ _ _ Hv Hc)
      as (? & ? & ? & _ & _ & _ & ->). reflexivity.
  - destruct (visited_seed_node _ _ _ _ _ _ _ _ Hv Hc)
      as (? & ? & _ & _ & ->). reflexivity.
Qed.

Lemma visit_items_modified items :
  forall st items' st',
    visit_items items st = (items', st', None) ->
    modified st' = modified st || existsb classed items /\
    (existsb classed items = false -> items' = items /\ st' = st).
Proof.
  induction items as [|[id0 v0] rest IH]; intros st items' st' E.
  - injection E as <- <-. simpl. rewrite orb_false_r. auto.
  - cbn [Mutator.visit_items existsb] in *.
    destruct (classed (id0, v0)) eqn:Hc.
    + destruct (visit id0 v0 st) as [st1 [v1|e1]] eqn:Ev; [|discriminate].
      pose proof (visit_classed _ _ _ _ _ Hc Ev) as Hm.
      destruct (visit_items rest st1) as [[rest' st2] r2] eqn:Er.
      injection E as <- <- ->.
      destruct (IH _ _ _ Er) as [H _]. rewrite H, Hm. simpl.
      rewrite orb_true_r. split; [reflexivity|discriminate].
    + rewrite (visit_unclassed _ _ st Hc) in E.
      destruct (visit_items rest st) as [[rest' st2] r2] eqn:Er.
      injection E as <- <- ->.
      destruct (IH _ _ _ Er) as [H1 H2]. simpl. split; auto.
      intros Hn. destruct (H2 Hn) as [-> ->]. auto.
Qed.

Lemma seed_reports_app a b :
  seed_reports (a ++ b) = seed_reports a ++ seed_reports b.
Proof.
  induction a as [|[ | | | ] a IH]; simpl; auto. now rewrite IH.
Qed.

(** What one visit that returns adds to the reported seeds. *)
Lemma visit_seed_report node_id v st st' v' :
  visit node_id v st = (st', Return v') ->
  if is_sampler (node_id, v) then
    seed_reports (stdout st') =
      seed_reports (stdout st)
      ++ [(node_id, JInt (seed_of uuid4_int (drawn st)))] /\
    drawn st' = S (drawn st)
  else
    seed_reports (stdout st') = seed_reports (stdout st) /\
    drawn st' = drawn st.
Proof.
  intros E.
  pose proof (visit_visited uuid4_int positive_prompt negative_prompt
                node_id v st) as Hv.
  rewrite E in Hv. simpl in Hv. unfold is_sampler. simpl.
  inversion Hv; subst.
  - destruct v' as [| | | | |l|nd]; auto.
    match goal with H : forall nd0, _ = _ -> _ |- _ =>
      destruct (H nd eq_refl) as [_ ->] end. auto.
  - match goal with H : class_is nd "CLIPTextEncode" = true |- _ =>
      rename H into Hc end.
    destruct (class_is nd "KSampler") eqn:Hk.
    + rewrite (classes_exclude _ Hk) in Hc. discriminate.
    + simpl. rewrite seed_reports_app.
      match goal with H : (_, _) = _ |- _ =>
        destruct (negative_slot current_text); injection H as _ -> end;
        simpl; rewrite app_nil_r; auto.
  - match goal with H : class_is nd "KSampler" = true |- _ => rewrite H end.
    simpl. rewrite seed_reports_app. auto.
Qed.

Lemma visit_items_seed_reports items :
  forall st items' st',
    visit_items items st = (items', st', None) ->
    let samplers := filter is_sampler items in
    seed_reports (stdout st') =
      seed_reports (stdout st)
      ++ combine (map fst samplers)
                 (map (fun k => JInt (seed_of uuid4_int k))
                      (seq (drawn st) (List.length samplers))) /\
    drawn st' = (drawn st + List.length samplers)%nat.
Proof.
  induction items as [|[id0 v0] rest IH]; intros st items' st' E.
  - injection E as <- <-. simpl. rewrite app_nil_r. auto.
  - cbn [Mutator.visit_items] in E.
    destruct (visit id0 v0 st) as [st1 [v1|e1]] eqn:Ev; [|discriminate].
    pose proof (visit_seed_report _ _ _ _ _ Ev) as Hs.
    destruct (visit_items rest st1) as [[rest' st2] r2] eqn:Er.
    injection E as <- <- ->.
    destruct (IH _ _ _ Er) as [H1 H2]. cbn [filter].
    destruct (is_sampler (id0, v0)); destruct Hs as [Hs1 Hs2]; cbn zeta.
    + simpl. rewrite H1, Hs1, Hs2, <- app_assoc. simpl. split; auto.
      rewrite H2, Hs2. lia.
    + rewrite H1, Hs1, Hs2. split; auto. rewrite H2, Hs2. reflexivity.
Qed.

End MutatorRuns.

Lemma seed_reports_warning (lines : list line) :
  seed_reports (lines ++ [WarningNoNodes]) = seed_reports lines.
Proof. rewrite seed_reports_app. simpl. apply app_nil_r. Qed.

(** X1.  [modify_workflow] returns exactly on the graphs all of whose nodes
    are [visitable]: every CLIPTextEncode node's "inputs", if present, is a
    mapping whose "text", if present, is a str, and every KSampler node's
    "inputs", if present, is a mapping.  On any other graph it raises. *)
Theorem modify_workflow_returns_iff
        (uuid4_int : nat -> Z) (workflow : dict)
        (positive_prompt negative_prompt : string) :
  raised (modify_workflow uuid4_int workflow positive_prompt negative_prompt)
  = None <->
  forallb visitable workflow = true.
Proof.
  destruct (modify_workflow_loop uuid4_int positive_prompt negative_prompt workflow)
    as (items' & st & r & E & _ & R & _).
  rewrite R.
  rewrite <- (visit_items_returns_iff uuid4_int positive_prompt negative_prompt
                workflow (Locals false [] 0)).
  rewrite E. reflexivity.
Qed.

(** X2.  When [modify_workflow] returns, the warning about missing nodes is
    printed exactly when the graph has no dict node whose class is
    CLIPTextEncode or KSampler; in that case it is the only line printed and
    the graph is returned as loaded. *)
Theorem warning_iff_no_classed_node
        (uuid4_int : nat -> Z) (workflow : dict)
        (positive_prompt negative_prompt : string) :
  let out := modify_workflow uuid4_int workflow positive_prompt negative_prompt in
  raised out = None ->
  (existsb classed workflow = true -> ~ In WarningNoNodes (printed out)) /\
  (existsb classed workflow = false ->
   printed out = [WarningNoNodes] /\ graph out = workflow).
Proof.
  intros out Hr.
  destruct (modify_workflow_loop uuid4_int positive_prompt negative_prompt workflow)
    as (items' & st & r & E & G & R & P).
  fold out in G, R, P. rewrite R in Hr. rewrite Hr in E, P.
  destruct (visit_items_modified _ _ _ _ _ _ _ E) as [Hm Hn].
  simpl in Hm. split.
  - intros Hc. rewrite Hc in Hm. rewrite Hm in P. rewrite P.
    destruct (visit_items_extends _ _ _ _ _ _ _ _ E)
      as (_ & (more & L & W) & _).
    simpl in L. now rewrite L.
  - intros Hc. destruct (Hn Hc) as [-> ->]. rewrite P, G. auto.
Qed.

(** X3.  When [modify_workflow] returns, the KSampler nodes get the
    identifiers drawn from [uuid.uuid4()] one each, in the order of the
    graph: the seeds it reports are, node by node, the first, second, ...
    draw reduced modulo 2^32, and nothing else is drawn. *)
Theorem samplers_get_consecutive_draws
        (uuid4_int : nat -> Z) (workflow : dict)
        (positive_prompt negative_prompt : string) :
  let out := modify_workflow uuid4_int workflow positive_prompt negative_prompt in
  let samplers := filter is_sampler workflow in
  raised out = None ->
  seed_reports (printed out) =
  combine (map fst samplers)
          (map (fun k => JInt (uuid4_int k mod 2 ^ 32))
               (seq 0 (List.length samplers))).
Proof.
  intros out samplers Hr.
  destruct (modify_workflow_loop uuid4_int positive_prompt negative_prompt workflow)
    as (items' & st & r & E & G & R & P).
  fold out in G, R, P. rewrite R in Hr. rewrite Hr in E, P.
  destruct (visit_items_seed_reports _ _ _ _ _ _ _ E) as [H _].
  simpl in H. rewrite P.
  destruct (modified st); simpl; [|rewrite seed_reports_warning]; exact H.
Qed.


(** *** The slot test *)

Lemma prefix_inv (s t : string) :
  String.prefix s t = true -> exists b, t = (s ++ b)%string.
Proof.
  revert t. induction s as [|c s IH]; intros t H.
  - now exists t.
  - destruct t as [|c' t]; simpl in H; [discriminate|].
    destruct (ascii_dec c c') as [<-|]; [|discriminate].
    destruct (IH _ H) as [b ->]. now exists b.
Qed.

Lemma contains_inv (s t : string) :
  contains s t = true -> exists a b, t = (a ++ s ++ b)%string.
Proof.
  induction t as [|c t IH]; cbn [contains]; rewrite orb_true_iff;
    intros [H|H].
  - destruct (prefix_inv _ _ H) as [b E]. now exists ""%string, b.
  - discriminate.
  - destruct (prefix_inv _ _ H) as [b E]. now exists ""%string, b.
  - destruct (IH H) as (a & b & ->). now exists (String c a), b.
Qed.

Lemma lower_app (a b : string) :
  lower (a ++ b)%string = (lower a ++ lower b)%string.
Proof. induction a as [|c a IH]; simpl; congruence. Qed.

Lemma lower_split (s x y : string) :
  lower s = (x ++ y)%string ->
  exists s1 s2, s = (s1 ++ s2)%string /\ lower s1 = x /\ lower s2 = y.
Proof.
  revert s. induction x as [|c x IH]; intros s H; simpl in *.
  - now exists ""%string, s.
  - destruct s as [|c' s]; [discriminate|]. simpl in H.
    injection H as Hc H. destruct (IH _ H) as (s1 & s2 & -> & <- & <-).
    exists (String c' s1), s2. simpl. now rewrite Hc.
Qed.

(** X5.  A text is a negative slot exactly when it holds, anywhere, even
    inside a longer word, a run of characters that is "negative" or "bad" up
    to the case of its ASCII letters. *)
Theorem negative_slot_iff (current_text : string) :
  negative_slot current_text = true <->
  exists a w b,
    current_text = (a ++ w ++ b)%string /\
    (lower w = "negative"%string \/ lower w = "bad"%string).
Proof.
  unfold negative_slot. rewrite orb_true_iff. split.
  - assert (Split : forall word,
              contains word (lower current_text) = true ->
              exists a w b,
                current_text = (a ++ w ++ b)%string /\ lower w = word).
    { intros word H. destruct (contains_inv _ _ H) as (a' & b' & E).
      destruct (lower_split _ _ _ E) as (a & r & -> & _ & Er).
      destruct (lower_split _ _ _ Er) as (w & b & -> & Hw & _).
      now exists a, w, b. }
    intros [H|H]; destruct (Split _ H) as (a & w & b & E & Hw);
      exists a, w, b; auto.
  - intros (a & w & b & -> & Hw).
    rewrite !lower_app.
    destruct Hw as [-> | ->]; [left|right];
      apply contains_after, contains_head.
Qed.

(* ================================================================= *)
(** ** The client object *)

Lemma rstrip_slashes (n : nat) : rstrip_slash (slashes n) = ""%string.
Proof. induction n as [|n IH]; simpl; auto. now rewrite IH. Qed.

Lemma rstrip_keeps (s : string) (n : nat) :
  ends_with_slash s = false -> rstrip_slash (s ++ slashes n) = s.
Proof.
  induction s as [|c t IH]; intros H.
  - apply rstrip_slashes.
  - cbn [append rstrip_slash]. destruct t as [|c' t'].
    + simpl in H. simpl. rewrite rstrip_slashes, H. reflexivity.
    + rewrite IH by exact H. reflexivity.
Qed.

Lemma rstrip_splits (s : string) :
  exists n, s = (rstrip_slash s ++ slashes n)%string.
Proof.
  induction s as [|c t [n IH]]; [now exists 0%nat|].
  cbn [rstrip_slash]. destruct (rstrip_slash t) as [|c' t'] eqn:E.
  - destruct (Ascii.eqb c "/") eqn:Ec.
    + apply Ascii.eqb_eq in Ec. subst c. exists (S n). simpl. now rewrite IH at 1.
    + exists n. simpl. now rewrite IH at 1.
  - exists n. simpl. now rewrite IH at 1.
Qed.

Lemma rstrip_no_slash (s : string) : ends_with_slash (rstrip_slash s) = false.
Proof.
  induction s as [|c t IH]; auto.
  cbn [rstrip_slash]. destruct (rstrip_slash t) as [|c' t'] eqn:E.
  - destruct (Ascii.eqb c "/") eqn:Ec; simpl; auto.
  - exact IH.
Qed.

Lemma ends_with_slash_app (a s : string) :
  s <> ""%string -> ends_with_slash (a ++ s) = ends_with_slash s.
Proof.
  intros Hs. induction a as [|c a IH]; auto.
  cbn [append]. destruct (a ++ s)%string eqn:E.
  - destruct a; simpl in E; [contradiction|discriminate].
  - exact IH.
Qed.

Lemma replace_from_skip (old new o s : string) :
  replace_from old new (String.length o) (o ++ s) = replace_from old new 0 s.
Proof. induction o as [|c o IH]; simpl; auto. Qed.

Lemma replace_head (old new s : string) :
  old <> ""%string ->
  replace old new (old ++ s) = (new ++ replace old new s)%string.
Proof.
  intros Ho. destruct old as [|c o]; [contradiction|].
  unfold replace. cbn [append replace_from].
  change (String c (o ++ s)) with (String c o ++ s)%string.
  rewrite prefix_append. cbn [String.length].
  rewrite Nat.sub_succ, Nat.sub_0_r. now rewrite replace_from_skip.
Qed.

Lemma replace_absent (old new s : string) :
  contains old s = false -> replace old new s = s.
Proof.
  unfold replace. induction s as [|c t IH]; auto.
  cbn [contains replace_from]. intros H.
  apply orb_false_iff in H. destruct H as [-> H]. now rewrite IH.
Qed.

Lemma contains_skips (c o : ascii) (old t : string) :
  o <> c -> contains (String o old) (String c t) = contains (String o old) t.
Proof.
  intros H. cbn [contains String.prefix].
  destruct (ascii_dec o c); [contradiction|reflexivity].
Qed.

(** X6.  The base URL the client keeps is the given URL without its
    trailing slashes, and only those: it does not end with "/", the given
    URL is the base URL followed by slashes, and building a client from a
    base URL gives that base URL back. *)
Theorem init_strips_trailing_slashes (url : string) :
  (exists n, url = (base_url (init url) ++ slashes n)%string) /\
  ends_with_slash (base_url (init url)) = false /\
  base_url (init (base_url (init url))) = base_url (init url).
Proof.
  simpl. split; [apply rstrip_splits|]. split; [apply rstrip_no_slash|].
  pose proof (rstrip_keeps (rstrip_slash url) 0 (rstrip_no_slash url)) as H.
  simpl in H.
  assert (E : forall s, (s ++ "")%string = s)
    by (induction s; simpl; congruence).
  now rewrite E in H.
Qed.

(** X7.  For a URL made of the scheme "http://" or "https://", a host part
    that is not empty, does not end with "/" and holds neither scheme
    again, and any number of trailing slashes, the client keeps scheme and
    host as base URL and the same host under "ws://", respectively "wss://",
    as websocket URL. *)
Theorem init_websocket_url (host : string) (n : nat) :
  host <> ""%string ->
  ends_with_slash host = false ->
  contains "http://" host = false ->
  contains "https://" host = false ->
  init ("http://" ++ host ++ slashes n)
  = ComfyUIClient ("http://" ++ host) ("ws://" ++ host) /\
  init ("https://" ++ host ++ slashes n)
  = ComfyUIClient ("https://" ++ host) ("wss://" ++ host).
Proof.
  intros Hne Hs Hh Hhs.
  assert (Assoc : forall a : string,
             (a ++ host ++ slashes n)%string = ((a ++ host) ++ slashes n)%string).
  { intros a. induction a as [|c a IH]; simpl; congruence. }
  assert (Hb : forall a : string,
             rstrip_slash (a ++ host ++ slashes n) = (a ++ host)%string).
  { intros a. rewrite Assoc. apply rstrip_keeps.
    now rewrite ends_with_slash_app. }
  unfold init. rewrite !Hb. split; f_equal.
  - rewrite (replace_head "http://" "ws://" host) by discriminate.
    rewrite (replace_absent "http://" "ws://" host Hh).
    apply replace_absent.
    cbn [append].
    rewrite !contains_skips by discriminate. exact Hhs.
  - rewrite (replace_absent "http://" "ws://" ("https://" ++ host)).
    + rewrite (replace_head "https://" "wss://" host) by discriminate.
      now rewrite (replace_absent "https://" "wss://" host Hhs).
    + cbn [append].
      assert (Step : forall old c t,
                 contains old (String c t)
                 = String.prefix old (String c t) || contains old t)
        by reflexivity.
      rewrite Step.
      change (String.prefix "http://"
                (String "h" (String "t" (String "t" (String "p"
                   (String "s" (String ":" (String "/" (String "/" host)))))))))
        with false.
      rewrite orb_false_l.
      rewrite !contains_skips by discriminate. exact Hh.
Qed.

(* ================================================================= *)
(** ** The Job Submitter *)

(** X8.  [queue_prompt] returns an identifier only when the upstream
    answered with a JSON object whose "prompt_id" is that identifier, and
    the identifier is truthy: never null, false, 0, an empty string or an
    empty container. *)
Theorem queue_prompt_returns_what_upstream_assigned
        (base_url : string) (post : json -> reply decoded) (workflow : dict)
        (id : json) :
  queue_prompt base_url post workflow = Return id ->
  exists result,
    post (JObj [("prompt", JObj workflow)]) = Replies (Json (JObj result)) /\
    dict_get "prompt_id" result = Some id /\
    truthy id = true.
Proof.
  unfold queue_prompt.
  destruct (post (JObj [("prompt", JObj workflow)])) as [c|[data|raw]];
    try discriminate.
  destruct data as [| | | | | |result]; try discriminate.
  cbn [get bind]. unfold dict_get_default.
  destruct (dict_get "prompt_id" result) as [v|] eqn:Hv; [|discriminate].
  destruct (truthy v) eqn:Ht; [|discriminate].
  intros H. injection H as <-. exists result. auto.
Qed.

(** X9.  The failures of [queue_prompt]: the status is 503 exactly when the
    request itself failed (no connection, timeout, or a status that is not
    2xx), and 500 exactly when the upstream answered with a JSON object
    without a truthy "prompt_id"; it raises no other [HTTPException]. *)
Theorem queue_prompt_failure_status
        (base_url : string) (post : json -> reply decoded) (workflow : dict) :
  let answer := post (JObj [("prompt", JObj workflow)]) in
  let r := queue_prompt base_url post workflow in
  (status_of r = Some 503 <-> exists c, answer = HttpFails c) /\
  (status_of r = Some 500 <->
   exists result,
     answer = Replies (Json (JObj result)) /\
     truthy (dict_get_default "prompt_id" JNull result) = false) /\
  (forall h, r = Raise (Http h) -> status_code h = 503 \/ status_code h = 500).
Proof.
  intros answer r. unfold r, queue_prompt. fold answer.
  destruct answer as [c|[data|raw]].
  - simpl. repeat split; eauto; try discriminate.
    + intros (result & H & _). discriminate.
    + intros h H. injection H as <-. auto.
  - destruct data as [| | | | | |result]; simpl;
      try (repeat split; try discriminate;
           [intros [c H]; discriminate|intros (result & H & _); discriminate]).
    destruct (truthy (dict_get_default "prompt_id" JNull result)) eqn:Ht; simpl.
    + repeat split; try discriminate.
      * intros [c H]; discriminate.
      * intros (result' & H & Hf). injection H as <-. congruence.
    + repeat split; try discriminate; eauto.
      * intros [c H]; discriminate.
      * intros h H. injection H as <-. auto.
  - simpl. repeat split; try discriminate.
    + intros [c H]; discriminate.
    + intros (result & H & _). discriminate.
Qed.

(* ================================================================= *)
(** ** More on the Completion Watcher *)

Lemma tags_exclude (event : dict) :
  tag_is event "executing" = true -> tag_is event "execution_error" = false.
Proof.
  unfold tag_is, eq_str.
  destruct (dict_get_default "type" JNull event); try discriminate.
  intros H. apply String.eqb_eq in H. now subst.
Qed.

(** The frames [on_message] passes over are the [ignorable] ones. *)
Lemma on_message_keep_iff (prompt_id : string) (message : decoded) :
  on_message prompt_id message = Return keep_watching <->
  ignorable prompt_id (Received message) = true.
Proof.
  split; [|apply on_message_ignorable].
  destruct message as [data|raw]; [|discriminate].
  destruct data as [| | | | | |event]; try discriminate.
  unfold ignorable, terminating.
  destruct (payload_of event) as [| | | | | |payload] eqn:Hp;
    try (unfold on_message; cbn [get bind];
         fold (tag_is event "executing"); fold (tag_is event "execution_error");
         fold (payload_of event); rewrite Hp;
         destruct (tag_is event "executing");
         [discriminate|destruct (tag_is event "execution_error");
                       [discriminate|reflexivity]]).
  intros H. rewrite (on_message_tagged prompt_id _ _ Hp) in H.
  destruct (tag_is event "executing") eqn:Te.
  - rewrite (tags_exclude _ Te). simpl.
    destruct (names_job prompt_id payload && no_node payload);
      [discriminate|reflexivity].
  - destruct (tag_is event "execution_error"); simpl; auto.
    destruct (names_job prompt_id payload); [discriminate|reflexivity].
Qed.

(** How [on_message] can end. *)
Lemma on_message_ends (prompt_id : string) (message : decoded) :
  on_message prompt_id message = Return keep_watching \/
  (on_message prompt_id message = Return execution_completed /\
   exists event payload,
     message = Json (JObj event) /\
     tag_is event "executing" = true /\
     payload_of event = JObj payload /\
     names_job prompt_id payload = true /\
     no_node payload = true) \/
  on_message prompt_id message = Raise (Other JSONDecodeError) \/
  on_message prompt_id message = Raise (Other AttributeError) \/
  exists event payload,
    message = Json (JObj event) /\
    tag_is event "execution_error" = true /\
    payload_of event = JObj payload /\
    names_job prompt_id payload = true /\
    on_message prompt_id message =
    Raise (Http (HTTPException 500
             [FStr "ComfyUI execution error: "; FJson (JObj payload)])).
Proof.
  destruct message as [data|raw]; [|auto].
  destruct data as [| | | | | |event]; auto.
  destruct (payload_of event) as [| | | | | |payload] eqn:Hp;
    try solve [unfold on_message; cbn [get bind];
         fold (tag_is event "executing"); fold (tag_is event "execution_error");
         fold (payload_of event); rewrite Hp;
         destruct (tag_is event "executing");
         [auto|destruct (tag_is event "execution_error"); auto]].
  rewrite (on_message_tagged _ _ _ Hp).
  destruct (tag_is event "executing") eqn:Te.
  - destruct (names_job prompt_id payload) eqn:Hn; simpl; auto.
    destruct (no_node payload) eqn:Hnode; simpl; auto.
    right. left. split; auto. exists event, payload. auto.
  - destruct (tag_is event "execution_error") eqn:Tx; auto.
    destruct (names_job prompt_id payload) eqn:Hn; auto.
    right. right. right. right. exists event, payload. auto.
Qed.

(** A watch that ended did so on one turn, after turns it got past. *)
Lemma watch_decompose (prompt_id : string) (timeout : Z) (start_time : float)
      (turns : list turn) (r : outcome bool) :
  watch prompt_id timeout start_time turns = Some r ->
  exists before t after,
    turns = before ++ t :: after /\
    Forall (passed_over prompt_id timeout start_time) before /\
    watch prompt_id timeout start_time [t] = Some r.
Proof.
  induction turns as [|t rest IH]; [discriminate|].
  intros H.
  assert (Here : watch prompt_id timeout start_time [t] = Some r ->
                 exists before t0 after,
                   t :: rest = before ++ t0 :: after /\
                   Forall (passed_over prompt_id timeout start_time) before /\
                   watch prompt_id timeout start_time [t0] = Some r).
  { intros H1. exists [], t, rest. auto. }
  assert (Later : deadline_passed start_time (clock t) timeout = false ->
                  ignorable prompt_id (incoming t) = true ->
                  watch prompt_id timeout start_time rest = Some r ->
                  exists before t0 after,
                    t :: rest = before ++ t0 :: after /\
                    Forall (passed_over prompt_id timeout start_time) before /\
                    watch prompt_id timeout start_time [t0] = Some r).
  { intros Hd Hi H1.
    destruct (IH H1) as (before & t0 & after & -> & F & W).
    exists (t :: before), t0, after. repeat split; auto.
    constructor; auto. split; auto. }
  cbn [watch] in H |- *.
  destruct (deadline_passed start_time (clock t) timeout) eqn:Hd.
  - apply Here. cbn [watch]. now rewrite Hd.
  - destruct (incoming t) as [message| |e] eqn:Hin.
    + destruct (on_message prompt_id message) as [[b|]|e] eqn:Hm.
      * apply Here. cbn [watch]. now rewrite Hd, Hin, Hm.
      * apply Later; auto. now apply on_message_keep_iff.
      * apply Here. cbn [watch]. now rewrite Hd, Hin, Hm.
    + apply Later; auto.
    + apply Here. cbn [watch]. now rewrite Hd, Hin.
Qed.

(** How a watch of a single turn can end. *)
Lemma watch_one (prompt_id : string) (timeout : Z) (start_time : float)
      (t : turn) (r : outcome bool) :
  watch prompt_id timeout start_time [t] = Some r ->
  (deadline_passed start_time (clock t) timeout = true /\
   r = Raise timed_out) \/
  (deadline_passed start_time (clock t) timeout = false /\
   ((exists e, incoming t = RecvFailed e /\ r = Raise (Other e)) \/
    (exists message,
       incoming t = Received message /\
       ((on_message prompt_id message = Return execution_completed /\
         r = Return true) \/
        (exists e, on_message prompt_id message = Raise e /\ r = Raise e))))).
Proof.
  cbn [watch].
  destruct (deadline_passed start_time (clock t) timeout).
  - intros H. injection H as <-. auto.
  - destruct (incoming t) as [message| |e]; try discriminate.
    + destruct (on_message prompt_id message) as [[b|]|e] eqn:Hm;
        try discriminate; intros H; injection H as <-; right; split; auto;
        right; exists message; split; auto.
      * left. destruct (on_message_ends prompt_id message)
          as [H|[[H _]|[H|[H|(? & ? & _ & _ & _ & _ & H)]]]];
          rewrite Hm in H; try discriminate.
        injection H as ->. auto.
      * right. eauto.
    + intros H. injection H as <-. right. split; auto. left. eauto.
Qed.

Lemma wait_connected (prompt_id : string) (timeout : Z) (start_time : float)
      (turns : list turn) (r : outcome bool) :
  wait_for_completion prompt_id timeout (Connected start_time turns) = Some r ->
  exists r0,
    watch prompt_id timeout start_time turns = Some r0 /\ r = rethrow r0.
Proof.
  cbn [wait_for_completion].
  destruct (watch prompt_id timeout start_time turns) as [r0|];
    [|discriminate].
  intros H. injection H as <-. eauto.
Qed.

(** X10.  However a watch ends, the caller of [wait_for_completion] gets
    [True] or an [HTTPException] with status 500 or 504: the method never
    returns [False] and never lets any other exception out. *)
Theorem wait_for_completion_outcomes
        (prompt_id : string) (timeout : Z) (ws : connection)
        (r : outcome bool) :
  wait_for_completion prompt_id timeout ws = Some r ->
  r = Return true \/
  exists h, r = Raise (Http h) /\ (status_code h = 500 \/ status_code h = 504).
Proof.
  destruct ws as [start_time turns|e].
  - intros H. destruct (wait_connected _ _ _ _ _ H) as (r0 & W & ->).
    destruct (watch_decompose _ _ _ _ _ W) as (_ & t & _ & _ & _ & W1).
    destruct (watch_one _ _ _ _ _ W1)
      as [[_ ->]|[_ [(e & _ & ->)|(m & _ & [[_ ->]|(e & Hm & ->)])]]].
    + right. eexists. split; [reflexivity|]. right. reflexivity.
    + right. eexists. split; [reflexivity|]. left. reflexivity.
    + now left.
    + right.
      destruct (on_message_ends prompt_id m)
        as [H1|[[H1 _]|[H1|[H1|(? & ? & _ & _ & _ & _ & H1)]]]];
        rewrite Hm in H1; try discriminate; injection H1 as ->;
        eexists; (split; [reflexivity|]); left; reflexivity.
  - simpl. intros H. injection H as <-.
    right. eexists. split; [reflexivity|]. left. reflexivity.
Qed.

Lemma completed_watch_has_event
        (prompt_id : string) (timeout : Z) (start_time : float)
        (turns : list turn) :
  wait_for_completion prompt_id timeout (Connected start_time turns)
  = Some (Return true) ->
  exists before t after event payload,
    turns = before ++ t :: after /\
    Forall (passed_over prompt_id timeout start_time) before /\
    deadline_passed start_time (clock t) timeout = false /\
    incoming t = Received (Json (JObj event)) /\
    tag_is event "executing" = true /\
    payload_of event = JObj payload /\
    names_job prompt_id payload = true /\
    no_node payload = true.
Proof.
  intros H. destruct (wait_connected _ _ _ _ _ H) as (r0 & W & E).
  destruct (watch_decompose _ _ _ _ _ W) as (before & t & after & -> & F & W1).
  destruct (watch_one _ _ _ _ _ W1)
    as [[_ ->]|[Hd [(e & _ & ->)|(m & Hin & [[Hm ->]|(e & Hm & ->)])]]];
    try discriminate.
  - destruct (on_message_ends prompt_id m)
      as [H1|[[_ (event & payload & -> & D)]|[H1|[H1|(? & ? & _ & _ & _ & _ & H1)]]]];
      try (rewrite Hm in H1; discriminate).
    exists before, t, after, event, payload.
    repeat split; auto; apply D.
  - destruct e; discriminate.
Qed.

(** X12.  [wait_for_completion] reports completion only on the strength of
    an "executing" message that names the watched job and has no node.  The
    message is the one received in a turn whose deadline check passed (the
    receive began within the deadline; the message itself may come up to 5
    units later), and every turn before it passed the check too and was
    passed over: no message for another job, and no message with a node,
    makes the method return. *)
Theorem completion_needs_the_jobs_own_event
        (prompt_id : string) (timeout : Z) (start_time : float)
        (turns : list turn) :
  wait_for_completion prompt_id timeout (Connected start_time turns)
  = Some (Return true) ->
  exists before t after event payload,
    turns = before ++ t :: after /\
    Forall (passed_over prompt_id timeout start_time) before /\
    deadline_passed start_time (clock t) timeout = false /\
    incoming t = Received (Json (JObj event)) /\
    tag_is event "executing" = true /\
    payload_of event = JObj payload /\
    names_job prompt_id payload = true /\
    no_node payload = true.
Proof. apply completed_watch_has_event. Qed.

(** X13.  [wait_for_completion] gives up with the 504 timeout only at a
    turn whose clock reading is more than [timeout] past the start, by the
    difference of the two readings that the machine computes, after turns
    whose readings were all within the deadline and whose receives were
    passed over: it never times out early. *)
Theorem timeout_needs_a_late_clock
        (prompt_id : string) (timeout : Z) (start_time : float)
        (turns : list turn) :
  wait_for_completion prompt_id timeout (Connected start_time turns)
  = Some (Raise timed_out) ->
  exists before t after,
    turns = before ++ t :: after /\
    Forall (passed_over prompt_id timeout start_time) before /\
    deadline_passed start_time (clock t) timeout = true.
Proof.
  intros H. destruct (wait_connected _ _ _ _ _ H) as (r0 & W & E).
  destruct (watch_decompose _ _ _ _ _ W) as (before & t & after & -> & F & W1).
  exists before, t, after. split; auto. split; auto.
  destruct (watch_one _ _ _ _ _ W1)
    as [[Hd _]|[_ [(e & _ & ->)|(m & _ & [[_ ->]|(e & Hm & ->)])]]];
    try discriminate.
  - assumption.
  - exfalso.
    destruct (on_message_ends prompt_id m)
      as [H1|[[H1 _]|[H1|[H1|(? & ? & _ & _ & _ & _ & H1)]]]];
      rewrite Hm in H1; try discriminate; injection H1 as ->; discriminate.
Qed.

(** X14.  [wait_for_completion] fails with "ComfyUI execution error" only
    on an "execution_error" message that names the watched job, received in
    a turn whose deadline check passed after turns that all passed it and
    were passed over, and the detail carries the payload of that very
    message. *)
Theorem execution_error_needs_the_jobs_own_event
        (prompt_id : string) (timeout : Z) (start_time : float)
        (turns : list turn) (error_data : json) :
  wait_for_completion prompt_id timeout (Connected start_time turns)
  = Some (Raise (Http (HTTPException 500
            [FStr "ComfyUI execution error: "; FJson error_data]))) ->
  exists before t after event payload,
    turns = before ++ t :: after /\
    Forall (passed_over prompt_id timeout start_time) before /\
    deadline_passed start_time (clock t) timeout = false /\
    incoming t = Received (Json (JObj event)) /\
    tag_is event "execution_error" = true /\
    payload_of event = JObj payload /\
    names_job prompt_id payload = true /\
    error_data = JObj payload.
Proof.
  intros H. destruct (wait_connected _ _ _ _ _ H) as (r0 & W & E).
  destruct (watch_decompose _ _ _ _ _ W) as (before & t & after & -> & F & W1).
  destruct (watch_one _ _ _ _ _ W1)
    as [[_ ->]|[Hd [(e & _ & ->)|(m & Hin & [[_ ->]|(e & Hm & ->)])]]];
    try discriminate.
  destruct (on_message_ends prompt_id m)
    as [H1|[[H1 _]|[H1|[H1|(event & payload & -> & Tx & Hp & Hn & H1)]]]];
    rewrite Hm in H1; try discriminate;
    injection H1 as ->; try discriminate.
  simpl in E. injection E as ->.
  exists before, t, after, event, payload.
  repeat split; auto.
Qed.

(** X15.  A turn that passes the deadline check and is passed over (a poll
    that timed out, a message of another job, a progress or status message)
    can be taken out of a run, wherever it stands, without changing how the
    watch ends: the stream is demultiplexed by job identifier. *)
Theorem passed_over_turn_changes_nothing
        (prompt_id : string) (timeout : Z) (start_time : float)
        (before after : list turn) (t : turn) :
  passed_over prompt_id timeout start_time t ->
  wait_for_completion prompt_id timeout
    (Connected start_time (before ++ t :: after)) =
  wait_for_completion prompt_id timeout
    (Connected start_time (before ++ after)).
Proof.
  intros [Hd Hi].
  cbn [wait_for_completion]. f_equal.
  induction before as [|x before IH].
  - apply watch_ignorable; auto.
  - cbn [app watch]. rewrite IH. reflexivity.
Qed.

(** X16.  In a turn that passes the deadline check, what is neither a
    well-formed message nor a poll ends the watch with status 500 and the
    detail "WebSocket error": a JSON value that is not an object, an
    "executing" or "execution_error" message whose "data" is not an object,
    and a receive that fails; so does a connection that cannot be
    opened. *)
Theorem broken_input_aborts_watch
        (prompt_id : string) (timeout : Z) (start_time now took : float)
        (rest : list turn) :
  deadline_passed start_time now timeout = false ->
  let run incoming :=
    wait_for_completion prompt_id timeout
      (Connected start_time (Turn now took incoming :: rest)) in
  let websocket_error e :=
    Some (Raise (Http (HTTPException 500
            [FStr "WebSocket error: "; FExn e]))) in
  (forall data,
     (forall event, data <> JObj event) ->
     run (Received (Json data)) = websocket_error AttributeError) /\
  (forall event,
     tag_is event "executing" || tag_is event "execution_error" = true ->
     (forall payload, payload_of event <> JObj payload) ->
     run (Received (Json (JObj event))) = websocket_error AttributeError) /\
  (forall e, run (RecvFailed e) = websocket_error e) /\
  (forall e,
     wait_for_completion prompt_id timeout (NotConnected e)
     = websocket_error e).
Proof.
  intros Hd run websocket_error.
  unfold run, websocket_error.
  cbn [wait_for_completion watch clock incoming]. rewrite Hd.
  repeat split.
  - intros data Hn.
    destruct data as [| | | | | |event]; try reflexivity.
    now destruct (Hn event).
  - intros event Ht Hp.
    unfold on_message. cbn [get bind].
    fold (tag_is event "executing"). fold (tag_is event "execution_error").
    fold (payload_of event).
    destruct (payload_of event) as [| | | | | |payload] eqn:E;
      try (destruct (tag_is event "executing");
           [reflexivity|destruct (tag_is event "execution_error");
                        [reflexivity|discriminate]]).
    now destruct (Hp payload).
Qed.

(* ================================================================= *)
(** ** More on the Result Fetcher *)

Section FetcherRuns.

Variable path_join : string -> string -> string.
Variable repr : json -> string.

Local Abbreviation fetch := (Fetcher.download_image path_join repr).

(** Every way [download_image] can end. *)
Lemma download_image_ends (w : world) (files : disk)
      (prompt_id output_dir : string) :
  (exists e, fetch w files prompt_id output_dir = (files, Raise e) /\
             (forall h, e = Http h ->
                        status_code h = 404 \/ status_code h = 500)) \/
  (exists hist entry outputs image_info filename content,
     history w prompt_id = Replies (Json hist) /\
     has prompt_id hist = Return true /\
     getitem hist prompt_id = Return entry /\
     get entry "outputs" (JObj []) = Return (JObj outputs) /\
     first_image outputs = Return (JObj image_info) /\
     dict_get "filename" image_info = Some filename /\
     truthy filename = true /\
     view w [("filename", filename);
             ("subfolder", dict_get_default "subfolder" (JStr "") image_info);
             ("type", dict_get_default "type" (JStr "output") image_info)]
       = Replies content /\
     let path :=
       path_join output_dir (artifact_name repr prompt_id filename) in
     can_open w path = true /\
     fetch w files prompt_id output_dir = after_opening w files path content).
Proof.
  assert (Fails : forall e,
             (forall h, e = Http h ->
                        status_code h = 404 \/ status_code h = 500) ->
             forall x, x = (files, @Raise string e) ->
             (exists e0, x = (files, Raise e0) /\
                (forall h, e0 = Http h ->
                           status_code h = 404 \/ status_code h = 500))).
  { intros e He x ->. eauto. }
  assert (Raw : forall p h, Other p = Http h ->
                            status_code h = 404 \/ status_code h = 500)
    by discriminate.
  assert (Is : forall c text h, Http (HTTPException c text) = Http h ->
                                c = 404 \/ c = 500 ->
                                status_code h = 404 \/ status_code h = 500).
  { intros c text h E Hc. injection E as <-. exact Hc. }
  unfold Fetcher.download_image, get_history.
  destruct (history w prompt_id) as [c|[hist|raw]] eqn:Hh;
    try (left; eapply Fails; [|reflexivity]; intros h E;
         solve [discriminate E | eapply Is; eauto]).
  destruct (has prompt_id hist) as [[|]|e] eqn:Hhas;
    try (left; eapply Fails; [|reflexivity]; intros h E;
         solve [eapply Is; eauto]).
  2:{ left. eapply Fails; [|reflexivity].
      destruct hist; try discriminate; injection Hhas as <-; apply Raw. }
  destruct (getitem hist prompt_id) as [entry|e] eqn:Hget; cbn [bind].
  2:{ left. eapply Fails; [|reflexivity].
      destruct hist as [| | | | | |d]; try (injection Hget as <-; apply Raw).
      simpl in Hget. destruct (dict_get prompt_id d); [discriminate|].
      injection Hget as <-. apply Raw. }
  destruct (get entry "outputs" (JObj [])) as [outputs|e] eqn:Hout; cbn [bind].
  2:{ left. eapply Fails; [|reflexivity].
      destruct entry; try discriminate; injection Hout as <-; apply Raw. }
  destruct (items outputs) as [node_outputs|e] eqn:Hitems; cbn [bind].
  2:{ left. eapply Fails; [|reflexivity].
      destruct outputs; try discriminate; injection Hitems as <-; apply Raw. }
  assert (outputs = JObj node_outputs) as ->
    by (destruct outputs; try discriminate; now injection Hitems as <-).
  destruct (first_image node_outputs) as [image_info|e] eqn:Hfirst.
  2:{ left. eapply Fails; [|reflexivity].
      clear - Hfirst Raw. revert Hfirst.
      induction node_outputs as [|[node_id o] rest IH]; [discriminate|].
      cbn [first_image].
      destruct (has "images" o) as [[|]|e0] eqn:Hhas; cbn [bind]; auto.
      - destruct (getitem o "images") as [images|e1] eqn:Hg; cbn [bind].
        + destruct (len images) as [n|e2] eqn:Hl; cbn [bind].
          * destruct (0 <? n); auto.
            intros H. destruct images as [| | | |[|]|[|]|]; try discriminate;
              injection H as <-; apply Raw.
          * intros H. injection H as <-.
            destruct images; try discriminate; injection Hl as <-; apply Raw.
        + intros H. injection H as <-.
          destruct o as [| | | | | |d]; try (injection Hg as <-; apply Raw).
          simpl in Hg. destruct (dict_get "images" d); [discriminate|].
          injection Hg as <-. apply Raw.
      - intros H. injection H as <-.
        destruct o; try discriminate; injection Hhas as <-; apply Raw. }
  destruct (truthy image_info) eqn:Htruthy; cbn [negb].
  2:{ left. eapply Fails; [|reflexivity]. intros h E. eapply Is; eauto. }
  destruct image_info as [| | | | | |info];
    try (left; eapply Fails; [|reflexivity]; apply Raw).
  cbn [get bind].
  destruct (truthy (dict_get_default "filename" JNull info)) eqn:Hname;
    cbn [negb].
  2:{ left. eapply Fails; [|reflexivity]. intros h E. eapply Is; eauto. }
  destruct (view w _) as [c|content] eqn:Hview.
  { left. eapply Fails; [|reflexivity]. intros h E. eapply Is; eauto. }
  destruct (can_open w _) eqn:Hopen; cbn [negb].
  2:{ left. eapply Fails; [|reflexivity]. apply Raw. }
  right.
  destruct (dict_get "filename" info) as [filename|] eqn:Hfile.
  2:{ unfold dict_get_default in Hname. rewrite Hfile in Hname.
      discriminate. }
  assert (Hfd : dict_get_default "filename" JNull info = filename)
    by (unfold dict_get_default; now rewrite Hfile).
  rewrite Hfd in *.
  exists hist, entry, node_outputs, info, filename, content.
  repeat split; auto.
Qed.

End FetcherRuns.

Lemma download_failed_status (e : pyexn) (h : http_exception) :
  download_failed e = Http h -> status_code h = 500.
Proof. destruct e; try discriminate. intros H. now injection H as <-. Qed.

(** What [after_opening] leaves: one more file, which holds the first bytes
    of the content, and all of them unless the write failed. *)
Lemma after_opening_ends (w : world) (files files' : disk) (path : string)
      (content : bytes) (r : outcome string) :
  after_opening w files path content = (files', r) ->
  exists kept,
    files' = (path, firstn kept content) :: files /\
    ((r = Return path /\ firstn kept content = content /\
      save w path content = Saved) \/
     (exists e, r = Raise (download_failed e))).
Proof.
  unfold after_opening.
  destruct (save w path content) as [|kept e|e];
    intros H; injection H as <- <-.
  - exists (List.length content). rewrite firstn_all. auto.
  - exists kept. eauto.
  - exists (List.length content). rewrite firstn_all. eauto.
Qed.



(** X18.  An [HTTPException] raised by [download_image] has status 404 or
    500, whatever the upstream and the file system do. *)
Theorem fetch_status_is_404_or_500
        (path_join : string -> string -> string) (repr : json -> string)
        (w : world) (files files' : disk) (prompt_id output_dir : string)
        (h : http_exception) :
  download_image path_join repr w files prompt_id output_dir
  = (files', Raise (Http h)) ->
  status_code h = 404 \/ status_code h = 500.
Proof.
  intros H.
  destruct (download_image_ends path_join repr w files prompt_id output_dir)
    as [(e & E & He)|(hist & entry & outputs & info & filename & content & D)].
  - rewrite E in H. injection H as _ ->. now apply He.
  - destruct D as (_ & _ & _ & _ & _ & _ & _ & _ & _ & E).
    rewrite E in H.
    destruct (after_opening_ends _ _ _ _ _ _ H)
      as (kept & _ & [(Hr & _)|(e & Hr)]); [discriminate|].
    injection Hr as Hr. right. now apply (download_failed_status e).
Qed.

(** X19.  A path returned by [download_image] is the path built from the
    output directory and the name made of the job identifier, "_" and the
    filename of the first image reference of the job's history: the head of
    the "images" list of the first output, in the order of the history,
    that is not passed over for having no or empty "images".  That
    filename is truthy, and the bytes written at the path are the body the
    upstream served for that reference's filename, subfolder (default "")
    and type (default "output"). *)
Theorem fetched_file_is_the_first_image
        (path_join : string -> string -> string) (repr : json -> string)
        (w : world) (files files' : disk) (prompt_id output_dir path : string) :
  download_image path_join repr w files prompt_id output_dir
  = (files', Return path) ->
  exists hist entry skipped node_id od rest image_info more filename content,
    history w prompt_id = Replies (Json hist) /\
    getitem hist prompt_id = Return entry /\
    get entry "outputs" (JObj [])
    = Return (JObj (skipped ++ (node_id, JObj od) :: rest)) /\
    forallb holds_no_image skipped = true /\
    dict_get "images" od = Some (JArr (JObj image_info :: more)) /\
    dict_get "filename" image_info = Some filename /\
    truthy filename = true /\
    view w [("filename", filename);
            ("subfolder", dict_get_default "subfolder" (JStr "") image_info);
            ("type", dict_get_default "type" (JStr "output") image_info)]
      = Replies content /\
    path = path_join output_dir (artifact_name repr prompt_id filename) /\
    files' = (path, content) :: files.
Proof.
  intros H.
  destruct (download_image_ends path_join repr w files prompt_id output_dir)
    as [(e & E & _)|(hist & entry & outputs & info & filename & content & D)].
  - rewrite E in H. discriminate.
  - destruct D as (Hh & _ & Hg & Ho & Hf & Hn & Ht & Hv & _ & E).
    rewrite E in H.
    destruct (after_opening_ends _ _ _ _ _ _ H)
      as (kept & -> & [(Hr & Hk & _)|(e & Hr)]); [|discriminate].
    injection Hr as ->. rewrite Hk.
    destruct (first_image_returns _ _ Hf)
      as [[N _]|(skipped & node_id & od & rest & -> & Hs
                 & [[more Hi]|(c & s & _ & N)])];
      try discriminate.
    exists hist, entry, skipped, node_id, od, rest, info, more, filename,
           content.
    repeat split; auto.
Qed.

(** X20.  [download_image] lets exceptions out that are not
    [HTTPException]s: a history body that is not JSON gives a
    [JSONDecodeError]; an entry for the job that is not a mapping, or
    "outputs" that are not a mapping, give an [AttributeError]; an output
    descriptor that is null, a boolean or a number gives a [TypeError]. *)
Theorem fetch_lets_unclassified_errors_out
        (path_join : string -> string -> string) (repr : json -> string)
        (w : world) (files : disk) (prompt_id output_dir : string) :
  let result := download_image path_join repr w files prompt_id output_dir in
  (forall raw,
     history w prompt_id = Replies (NotJson raw) ->
     result = (files, Raise (Other JSONDecodeError))) /\
  (forall h entry,
     history w prompt_id = Replies (Json (JObj h)) ->
     dict_get prompt_id h = Some entry ->
     ((forall d, entry <> JObj d) ->
      result = (files, Raise (Other AttributeError))) /\
     (forall d outputs,
        entry = JObj d ->
        dict_get "outputs" d = Some outputs ->
        ((forall o, outputs <> JObj o) ->
         result = (files, Raise (Other AttributeError))) /\
        (forall node_id descriptor rest,
           outputs = JObj ((node_id, descriptor) :: rest) ->
           (forall s, descriptor <> JStr s) ->
           (forall l, descriptor <> JArr l) ->
           (forall o, descriptor <> JObj o) ->
           result = (files, Raise (Other TypeError))))).
Proof.
  intros result. unfold result, download_image, get_history. split.
  - intros raw ->. reflexivity.
  - intros h entry -> He. cbn [has getitem]. rewrite He. cbn [bind]. split.
    + intros Hn. destruct entry as [| | | | | |d]; try reflexivity.
      now destruct (Hn d).
    + intros d outputs -> Ho. cbn [get bind].
      unfold dict_get_default. rewrite Ho. split.
      * intros Hn. destruct outputs as [| | | | | |o]; try reflexivity.
        now destruct (Hn o).
      * intros node_id descriptor rest -> Hs Hl Hd.
        cbn [items bind first_image].
        destruct descriptor as [| | | |s|l|o]; try reflexivity.
        -- now destruct (Hs s).
        -- now destruct (Hl l).
        -- now destruct (Hd o).
Qed.

(* ================================================================= *)
(** ** The Bridge Service *)

(** What the handler makes of an exception: an [HTTPException] as it is,
    anything else as status 500. *)
Lemma classify_raise {A : Type} (e : exn) :
  @classify A (Raise e) =
  Raise match e with
        | Http h => Http h
        | Other p =>
            Http (HTTPException 500 [FStr "Unexpected error: "; FExn p])
        end.
Proof. destruct e; reflexivity. Qed.

(** X21.  Whatever goes wrong in [generate_image], its caller gets an
    [HTTPException]: when a call of the handler raises, the handler ends,
    raising the [HTTPException] that call raised, unchanged, or, when the
    call raised something else, status 500 with the detail "Unexpected
    error: " and that exception; and the handler raises nothing that does
    not come from a call of its own in this way. *)
Theorem handler_raises_only_http_exceptions
        (c : calls) (request : GenerateImageRequest) (files : disk) :
  (forall e0,
     some_call_raised c request files e0 ->
     exists files',
       generate_image c request files =
       Some (files',
             Raise match e0 with
                   | Http h => Http h
                   | Other p =>
                       Http (HTTPException 500
                               [FStr "Unexpected error: "; FExn p])
                   end)) /\
  (forall files' e,
     generate_image c request files = Some (files', Raise e) ->
     exists e0,
       some_call_raised c request files e0 /\
       e = match e0 with
           | Http h => Http h
           | Other p =>
               Http (HTTPException 500 [FStr "Unexpected error: "; FExn p])
           end).
Proof.
  unfold generate_image, some_call_raised. split.
  - intros e0 [Hl|(workflow & Hl & [Hm|(modified_workflow & Hm &
                [Hq|(id & Hq & [Hw|(b & files' & Hw & Hd)])])])];
      rewrite Hl; try rewrite Hm; try rewrite Hq; try rewrite Hw;
      try rewrite Hd; rewrite classify_raise; eauto.
  - intros files' e.
    destruct (load c) as [workflow|e1] eqn:Hl.
    2:{ rewrite classify_raise. intros H. injection H as _ <-.
        exists e1. auto. }
    destruct (modify c workflow (prompt request) (negative_prompt request))
      as [modified_workflow|e1] eqn:Hm.
    2:{ rewrite classify_raise. intros H. injection H as _ <-.
        exists e1. split; auto. right. exists workflow. auto. }
    destruct (queue c modified_workflow) as [id|e1] eqn:Hq.
    2:{ rewrite classify_raise. intros H. injection H as _ <-.
        exists e1. split; auto.
        right. exists workflow. split; auto. right.
        exists modified_workflow. auto. }
    destruct (wait c id) as [[b|e1]|] eqn:Hw; [| |discriminate].
    2:{ rewrite classify_raise. intros H. injection H as _ <-.
        exists e1. split; auto.
        right. exists workflow. split; auto. right.
        exists modified_workflow. split; auto. right. exists id. auto. }
    destruct (download c id files) as [d [path|e1]] eqn:Hd; [discriminate|].
    rewrite classify_raise. intros H. injection H as _ <-.
    exists e1. split; auto.
    right. exists workflow. split; auto. right.
    exists modified_workflow. split; auto. right. exists id. split; auto.
    right. exists b, d. auto.
Qed.

(** X22.  [generate_image] answers only when the five calls succeeded in
    order, each on what the one before returned; the answer has status
    "success" and carries the identifier the submission returned and the
    path the fetch returned. *)
Theorem handler_answers_after_all_calls
        (c : calls) (request : GenerateImageRequest) (files files' : disk)
        (response : GenerateImageResponse) :
  generate_image c request files = Some (files', Return response) ->
  exists workflow modified_workflow id b path,
    load c = Return workflow /\
    modify c workflow (prompt request) (negative_prompt request)
    = Return modified_workflow /\
    queue c modified_workflow = Return id /\
    wait c id = Some (Return b) /\
    download c id files = (files', Return path) /\
    response = Response "success" "Image generated successfully"
                        (Some path) (Some id).
Proof.
  unfold generate_image.
  destruct (load c) as [workflow|[h|p]] eqn:Hl; try discriminate.
  destruct (modify c workflow (prompt request) (negative_prompt request))
    as [modified_workflow|[h|p]] eqn:Hm; try discriminate.
  destruct (queue c modified_workflow) as [id|[h|p]] eqn:Hq;
    try discriminate.
  destruct (wait c id) as [[b|[h|p]]|] eqn:Hw; try discriminate.
  destruct (download c id files) as [d [path|[h|p]]] eqn:Hd;
    try discriminate.
  intros H. injection H as <- <-.
  exists workflow, modified_workflow, id, b, path. repeat split; auto.
Qed.


Lemma wait_returns_connected (prompt_id : string) (timeout : Z)
      (ws : connection) (b : bool) :
  wait_for_completion prompt_id timeout ws = Some (Return b) ->
  exists start_time turns, ws = Connected start_time turns.
Proof. destruct ws as [start_time turns|e]; [eauto|discriminate]. Qed.

(** X24.  With the client's own watch and fetch, a request is answered only
    after the websocket delivered an "executing" message without node that
    names the very identifier the response carries, in a turn whose check
    of the deadline of 300 passed, as did the checks of all turns before
    it: the image is fetched only after the job's own completion event. *)
Theorem answer_follows_completion_event
        (path_join : string -> string -> string) (repr : json -> string)
        (socket : string -> connection) (w : world) (output_dir : string)
        (c : calls) (request : GenerateImageRequest) (files files' : disk)
        (response : GenerateImageResponse) :
  watches_and_fetches path_join repr socket w output_dir c ->
  generate_image c request files = Some (files', Return response) ->
  exists id path start_time before t after event payload,
    prompt_id response = Some id /\
    image_path response = Some path /\
    download_image path_join repr w files id output_dir
    = (files', Return path) /\
    socket id = Connected start_time (before ++ t :: after) /\
    Forall (passed_over id default_timeout start_time) before /\
    deadline_passed start_time (clock t) default_timeout = false /\
    incoming t = Received (Json (JObj event)) /\
    tag_is event "executing" = true /\
    payload_of event = JObj payload /\
    names_job id payload = true /\
    no_node payload = true.
Proof.
  intros [Hw Hd]. unfold generate_image.
  destruct (load c) as [workflow|[h|p]]; try discriminate.
  destruct (modify c workflow (prompt request) (negative_prompt request))
    as [modified_workflow|[h|p]]; try discriminate.
  destruct (queue c modified_workflow) as [id|[h|p]]; try discriminate.
  rewrite Hw, Hd.
  destruct (wait_for_completion id default_timeout (socket id))
    as [[b|[h|p]]|] eqn:W; try discriminate.
  destruct (download_image path_join repr w files id output_dir)
    as [d [path|[h|p]]] eqn:D; try discriminate.
  intros H. injection H as <- <-.
  destruct (wait_returns_connected _ _ _ _ W) as [start_time [turns S]].
  rewrite S in W.
  assert (b = true) as ->.
  { destruct (wait_connected _ _ _ _ _ W) as (r0 & W0 & E).
    destruct (watch_decompose _ _ _ _ _ W0) as (_ & t & _ & _ & _ & W1).
    destruct (watch_one _ _ _ _ _ W1)
      as [[_ ->]|[_ [(e & _ & ->)|(m & _ & [[_ ->]|(e & _ & ->)])]]];
      try discriminate; try (destruct e; discriminate).
    now injection E as ->. }
  destruct (completed_watch_has_event _ _ _ _ W)
    as (before & t & after & event & payload & -> & F & Hc & Hi & Ht & Hp & Hn & Hno).
  exists id, path, start_time, before, t, after, event, payload.
  repeat split; auto.
Qed.

(* ================================================================= *)
(** ** The further statements at concrete inputs *)

Lemma warning_iff_no_classed_node_witness :
  let out := modify_workflow some_uuids plain_template "A" "B" in
  raised out = None /\
  existsb classed plain_template = false /\
  printed out = [WarningNoNodes] /\ graph out = plain_template.
Proof.
  split; [reflexivity|]. split; [reflexivity|].
  exact (proj2 (warning_iff_no_classed_node some_uuids plain_template "A" "B"
                  eq_refl) eq_refl).
Defined.

Lemma samplers_get_consecutive_draws_witness :
  let out := modify_workflow some_uuids two_sampler_template "A" "B" in
  raised out = None /\
  seed_reports (printed out) =
  combine ["3"%string; "9"%string]
          (map (fun k => JInt (some_uuids k mod 2 ^ 32)) (seq 0 2)).
Proof.
  split; [reflexivity|].
  exact (samplers_get_consecutive_draws some_uuids two_sampler_template
           "A" "B" eq_refl).
Defined.

Example two_samplers_get_two_seeds :
  seed_reports (printed (modify_workflow some_uuids two_sampler_template
                           "A" "B"))
  = [("3"%string, JInt 12345); ("9"%string, JInt 12352)].
Proof. reflexivity. Qed.


Example half_good_template_is_half_mutated :
  let out := modify_workflow some_uuids half_good_template "A" "B" in
  input_of (graph out) "6" "text" = Some (JStr "B") /\
  input_of (graph out) "7" "text" = Some (JInt 7) /\
  input_of (graph out) "3" "seed" = Some (JInt 5).
Proof. vm_compute. repeat split. Qed.

Lemma init_websocket_url_witness :
  "192.168.1.7:8188"%string <> ""%string /\
  ends_with_slash "192.168.1.7:8188" = false /\
  contains "http://" "192.168.1.7:8188" = false /\
  contains "https://" "192.168.1.7:8188" = false /\
  init "http://192.168.1.7:8188//"
  = ComfyUIClient "http://192.168.1.7:8188" "ws://192.168.1.7:8188" /\
  init "https://192.168.1.7:8188//"
  = ComfyUIClient "https://192.168.1.7:8188" "wss://192.168.1.7:8188".
Proof.
  assert (Hn : "192.168.1.7:8188"%string <> ""%string) by discriminate.
  split; [exact Hn|]. split; [reflexivity|]. split; [reflexivity|].
  split; [reflexivity|].
  exact (init_websocket_url "192.168.1.7:8188" 2 Hn eq_refl eq_refl eq_refl).
Defined.

Lemma queue_prompt_returns_what_upstream_assigned_witness :
  let post (payload : json) : reply decoded :=
    Replies (Json (JObj [("prompt_id", JStr "J"); ("number", JInt 4)])) in
  queue_prompt "http://comfy:8188" post two_slot_template = Return (JStr "J") /\
  exists result,
    post (JObj [("prompt", JObj two_slot_template)])
    = Replies (Json (JObj result)) /\
    dict_get "prompt_id" result = Some (JStr "J") /\
    truthy (JStr "J") = true.
Proof.
  intros post. split; [reflexivity|].
  exact (queue_prompt_returns_what_upstream_assigned "http://comfy:8188" post
           two_slot_template (JStr "J") eq_refl).
Defined.

Lemma wait_for_completion_outcomes_witness :
  wait_for_completion "J" default_timeout (fox_socket "J")
  = Some (Return true) /\
  (Return true = Return true \/
   exists h, Return true = Raise (Http h) /\
             (status_code h = 500 \/ status_code h = 504)).
Proof.
  split; [reflexivity|].
  exact (wait_for_completion_outcomes "J" default_timeout (fox_socket "J")
           (Return true) eq_refl).
Defined.

Lemma completion_needs_the_jobs_own_event_witness :
  wait_for_completion "J" default_timeout (fox_socket "J")
  = Some (Return true) /\
  exists before t after event payload,
    [Turn 1 1 (Received (Json (JObj (executing "J" (JStr "3")))));
     Turn 2 1 (Received (Json (JObj (executing "J" JNull))))]
    = before ++ t :: after /\
    Forall (passed_over "J" default_timeout 0) before /\
    deadline_passed 0 (clock t) default_timeout = false /\
    incoming t = Received (Json (JObj event)) /\
    tag_is event "executing" = true /\
    payload_of event = JObj payload /\
    names_job "J" payload = true /\
    no_node payload = true.
Proof.
  split; [reflexivity|].
  exact (completion_needs_the_jobs_own_event "J" default_timeout 0
           [Turn 1 1 (Received (Json (JObj (executing "J" (JStr "3")))));
            Turn 2 1 (Received (Json (JObj (executing "J" JNull))))]
           eq_refl).
Defined.

Lemma timeout_needs_a_late_clock_witness :
  let turns := quiet_turns ++ [Turn 300.5 5 RecvTimeout] in
  wait_for_completion "J" default_timeout (Connected 0 turns)
  = Some (Raise timed_out) /\
  exists before t after,
    turns = before ++ t :: after /\
    Forall (passed_over "J" default_timeout 0) before /\
    deadline_passed 0 (clock t) default_timeout = true.
Proof.
  intros turns. split; [reflexivity|].
  exact (timeout_needs_a_late_clock "J" default_timeout 0 turns eq_refl).
Defined.

Lemma execution_error_needs_the_jobs_own_event_witness :
  let turns := [Turn 1 1 (Received (Json (JObj (execution_error "K"))));
                Turn 2 1 (Received (Json (JObj (execution_error "J"))))] in
  let error_data :=
    JObj [("prompt_id", JStr "J"); ("exception_message", JStr "out of memory")] in
  wait_for_completion "J" default_timeout (Connected 0 turns)
  = Some (Raise (Http (HTTPException 500
            [FStr "ComfyUI execution error: "; FJson error_data]))) /\
  exists before t after event payload,
    turns = before ++ t :: after /\
    Forall (passed_over "J" default_timeout 0) before /\
    deadline_passed 0 (clock t) default_timeout = false /\
    incoming t = Received (Json (JObj event)) /\
    tag_is event "execution_error" = true /\
    payload_of event = JObj payload /\
    names_job "J" payload = true /\
    error_data = JObj payload.
Proof.
  intros turns error_data. split; [reflexivity|].
  exact (execution_error_needs_the_jobs_own_event "J" default_timeout 0 turns
           error_data eq_refl).
Defined.

Lemma passed_over_turn_changes_nothing_witness :
  let other := Turn 2 1 (Received (Json (JObj (executing "K" JNull)))) in
  let first := Turn 1 1 (Received (Json (JObj status_event))) in
  let last := Turn 3 1 (Received (Json (JObj (executing "J" JNull)))) in
  passed_over "J" default_timeout 0 other /\
  wait_for_completion "J" default_timeout (Connected 0 ([first] ++ other :: [last]))
  = wait_for_completion "J" default_timeout (Connected 0 ([first] ++ [last])).
Proof.
  intros other first last.
  assert (H : passed_over "J" default_timeout 0 other)
    by (split; reflexivity).
  split; [exact H|].
  exact (passed_over_turn_changes_nothing "J" default_timeout 0
           [first] [last] other H).
Defined.

Lemma broken_input_aborts_watch_witness :
  deadline_passed 0 12 default_timeout = false /\
  (forall event, JArr [JInt 1] <> JObj event) /\
  wait_for_completion "J" default_timeout
    (Connected 0 [Turn 12 1 (Received (Json (JArr [JInt 1])));
                  Turn 13 1 (Received (Json (JObj (executing "J" JNull))))])
  = Some (Raise (Http (HTTPException 500
            [FStr "WebSocket error: "; FExn AttributeError]))).
Proof.
  assert (Hd : deadline_passed 0 12 default_timeout = false)
    by reflexivity.
  assert (Hn : forall event, JArr [JInt 1] <> JObj event)
    by (intros event E; discriminate E).
  split; [exact Hd|]. split; [exact Hn|].
  exact (proj1 (broken_input_aborts_watch "J" default_timeout 0 12 1 _ Hd)
           (JArr [JInt 1]) Hn).
Defined.

Example broken_payload_aborts_watch :
  wait_for_completion "J" default_timeout
    (Connected 0 [Turn 12 1 (Received (Json (JObj [("type", JStr "executing");
                                                   ("data", JNull)])))])
  = Some (Raise (Http (HTTPException 500
            [FStr "WebSocket error: "; FExn AttributeError]))).
Proof. reflexivity. Qed.


Example fetch_on_a_full_disk :
  let fetch kept :=
    download_image posix_join no_repr
                   (disk_full (history_with (JArr [fox_reference])) kept)
                   [("output/J_fox.png"%string, png)] "J" "output" in
  fetch 0%nat
  = ([("output/J_fox.png"%string, []); ("output/J_fox.png"%string, png)],
     Raise (Other OSError)) /\
  fetch 3%nat
  = ([("output/J_fox.png"%string, [Byte.x89; Byte.x50; Byte.x4e]);
      ("output/J_fox.png"%string, png)],
     Raise (Other OSError)).
Proof. split; reflexivity. Qed.

Lemma fetch_status_is_404_or_500_witness :
  let w := failing_download (history_with (JArr [fox_reference])) (Some 502) in
  let h := HTTPException 500
             [FStr "Failed to download image: "; FExn (HTTPXError (Some 502))] in
  download_image plain_join no_repr w [] "J" "output" = ([], Raise (Http h)) /\
  (status_code h = 404 \/ status_code h = 500).
Proof.
  intros w h. split; [reflexivity|].
  exact (fetch_status_is_404_or_500 plain_join no_repr w [] [] "J" "output" h
           eq_refl).
Defined.

(** The first output of "J" has no images and the second lists two
    references: the file is that of the first of the two. *)
Lemma fetched_file_is_the_first_image_witness :
  let hist :=
    [("J"%string,
      JObj [("outputs",
             JObj [("8", JObj [("text", JArr [JStr "a red fox"])]);
                   ("9", JObj [("images", JArr [fox_reference; JObj []])]);
                   ("10", JObj [("images", JArr [JObj [("filename",
                                                        JStr "cat.png")]])])])])] in
  let w := serving hist in
  download_image plain_join no_repr w [] "J" "output"
  = ([("output/J_fox.png"%string, png)], Return "output/J_fox.png"%string) /\
  exists hist entry skipped node_id od rest image_info more filename content,
    history w "J" = Replies (Json hist) /\
    getitem hist "J" = Return entry /\
    get entry "outputs" (JObj [])
    = Return (JObj (skipped ++ (node_id, JObj od) :: rest)) /\
    forallb holds_no_image skipped = true /\
    dict_get "images" od = Some (JArr (JObj image_info :: more)) /\
    dict_get "filename" image_info = Some filename /\
    truthy filename = true /\
    view w [("filename", filename);
            ("subfolder", dict_get_default "subfolder" (JStr "") image_info);
            ("type", dict_get_default "type" (JStr "output") image_info)]
      = Replies content /\
    "output/J_fox.png"%string
    = plain_join "output" (artifact_name no_repr "J" filename) /\
    [("output/J_fox.png"%string, png)]
    = ("output/J_fox.png"%string, content) :: [].
Proof.
  intros hist w. split; [reflexivity|].
  exact (fetched_file_is_the_first_image plain_join no_repr w [] _ "J" "output"
           "output/J_fox.png" eq_refl).
Defined.

Lemma fetch_lets_unclassified_errors_out_witness :
  let hist := [("J"%string, JNull)] in
  let w := serving hist in
  history w "J" = Replies (Json (JObj hist)) /\
  dict_get "J" hist = Some JNull /\
  (forall d, JNull <> JObj d) /\
  download_image plain_join no_repr w [] "J" "output"
  = ([], Raise (Other AttributeError)).
Proof.
  intros hist w.
  assert (Hn : forall d, JNull <> JObj d) by (intros d E; discriminate E).
  split; [reflexivity|]. split; [reflexivity|]. split; [exact Hn|].
  exact (proj1 (proj2 (fetch_lets_unclassified_errors_out plain_join no_repr
                         w [] "J" "output")
                  hist JNull eq_refl eq_refl) Hn).
Defined.

(** The job fails on the upstream: the watch raises, and the caller gets
    what it raised. *)
Lemma handler_raises_only_http_exceptions_witness :
  let detail :=
    [FStr "ComfyUI execution error: "; FJson (JObj
       [("prompt_id", JStr "J"); ("exception_message", JStr "out of memory")])] in
  some_call_raised failing_run fox_request [] (Http (HTTPException 500 detail)) /\
  exists files',
    generate_image failing_run fox_request []
    = Some (files', Raise (Http (HTTPException 500 detail))).
Proof.
  intros detail.
  assert (S : some_call_raised failing_run fox_request []
                               (Http (HTTPException 500 detail))).
  { right. eexists. split; [reflexivity|].
    right. eexists. split; [reflexivity|].
    right. exists "J"%string. split; [reflexivity|].
    left. reflexivity. }
  split; [exact S|].
  exact (proj1 (handler_raises_only_http_exceptions failing_run fox_request [])
           _ S).
Defined.

Lemma handler_answers_after_all_calls_witness :
  let response := Response "success" "Image generated successfully"
                           (Some "output/J_fox.png"%string) (Some "J"%string) in
  let files' := [("output/J_fox.png"%string, png)] in
  generate_image fox_run fox_request [] = Some (files', Return response) /\
  exists workflow modified_workflow id b path,
    load fox_run = Return workflow /\
    modify fox_run workflow (prompt fox_request) (negative_prompt fox_request)
    = Return modified_workflow /\
    queue fox_run modified_workflow = Return id /\
    wait fox_run id = Some (Return b) /\
    download fox_run id [] = (files', Return path) /\
    response = Response "success" "Image generated successfully"
                        (Some path) (Some id).
Proof.
  intros response files'. split; [reflexivity|].
  exact (handler_answers_after_all_calls fox_run fox_request [] files' response
           eq_refl).
Defined.


Lemma answer_follows_completion_event_witness :
  let w := serving (history_with (JArr [fox_reference])) in
  let response := Response "success" "Image generated successfully"
                           (Some "output/J_fox.png"%string) (Some "J"%string) in
  let files' := [("output/J_fox.png"%string, png)] in
  watches_and_fetches plain_join no_repr fox_socket w "output" fox_run /\
  generate_image fox_run fox_request [] = Some (files', Return response) /\
  exists id path start_time before t after event payload,
    prompt_id response = Some id /\
    image_path response = Some path /\
    download_image plain_join no_repr w [] id "output"
    = (files', Return path) /\
    fox_socket id = Connected start_time (before ++ t :: after) /\
    Forall (passed_over id default_timeout start_time) before /\
    deadline_passed start_time (clock t) default_timeout = false /\
    incoming t = Received (Json (JObj event)) /\
    tag_is event "executing" = true /\
    payload_of event = JObj payload /\
    names_job id payload = true /\
    no_node payload = true.
Proof.
  intros w response files'.
  assert (H : watches_and_fetches plain_join no_repr fox_socket w "output"
                                  fox_run)
    by (split; intros; reflexivity).
  split; [exact H|]. split; [reflexivity|].
  exact (answer_follows_completion_event plain_join no_repr fox_socket w
           "output" fox_run fox_request [] files' response H eq_refl).
Defined.

(** The request for "a red fox" end to end: the template is loaded and
    mutated, the job is submitted, watched and fetched. *)
Example red_fox_request :
  generate_image fox_run fox_request []
  = Some ([("output/J_fox.png"%string, png)],
          Return (Response "success" "Image generated successfully"
                           (Some "output/J_fox.png"%string)
                           (Some "J"%string))).
Proof. reflexivity. Qed.

(** X25.  When the handler loads the template with [load_workflow], a
    template file that is missing, or that is not JSON, fails the request
    with status 500 and the loader's message; any other failure to open or
    read it, which [load_workflow] lets through, fails it with status 500
    "Unexpected error"; in each case nothing is written, whatever the other
    calls would have done. *)
Theorem template_failure_fails_request
        (c : calls) (request : GenerateImageRequest) (files : disk)
        (workflow_path : string) (file : opened) :
  load c = load_workflow workflow_path file ->
  (file = FileNotFound ->
   generate_image c request files =
   Some (files, Raise (Http (HTTPException 500
      [FStr "Workflow file not found: "; FStr workflow_path;
       FStr ". Please place your workflow_api.json in the project root."])))) /\
  (forall raw,
     file = Loaded (NotJson raw) ->
     generate_image c request files =
     Some (files, Raise (Http (HTTPException 500
                                 [FStr "Invalid workflow JSON file"])))) /\
  (forall e,
     file = OpenFails e ->
     generate_image c request files =
     Some (files, Raise (Http (HTTPException 500
                                 [FStr "Unexpected error: "; FExn e])))).
Proof.
  intros Hl. unfold generate_image. rewrite Hl.
  repeat split; intros; subst; reflexivity.
Qed.

Lemma template_failure_fails_request_witness :
  let c := Calls (load_workflow "./workflow_api.json" FileNotFound)
                 (modify fox_run) (queue fox_run) (wait fox_run)
                 (download fox_run) in
  load c = load_workflow "./workflow_api.json" FileNotFound /\
  generate_image c fox_request [] =
  Some ([], Raise (Http (HTTPException 500
     [FStr "Workflow file not found: "; FStr "./workflow_api.json";
      FStr ". Please place your workflow_api.json in the project root."]))).
Proof.
  intros c. split; [reflexivity|].
  exact (proj1 (template_failure_fails_request c fox_request []
                  "./workflow_api.json" FileNotFound eq_refl) eq_refl).
Defined.
